(** * bentopdf: language routing, link rewriting and the PDF-to-FB2 file list

    A shallow embedding of three pieces of the repository:

    - the [language-router] plugin of the bundler configuration
      ([SUPPORTED_LANGUAGES], [LANG_REGEX], [loadPages], [getBasePath],
      [createLanguageMiddleware]);
    - the browser-side helpers of [src/js/i18n/i18n.ts]
      ([supportedLanguages], [getLanguageFromUrl], [changeLanguage],
      [rewriteLinks]);
    - the file-list bookkeeping of the PDF-to-FB2 tool page ([handleFiles]
      and the other handlers that assign [files]).

    Strings are sequences of 8-bit code units ([String.string]); this is
    exactly what Node hands to a middleware in [req.url], and on the browser
    side it covers hrefs and file names written in Latin-1.  The regular
    expressions of the source are kept as syntax trees and run by a small
    backtracking matcher that follows the ECMAScript evaluation order
    (alternatives left to right, greedy quantifiers, captures). *)

From Stdlib Require Import Bool Arith Lia List Ascii String.
Import ListNotations.
Open Scope string_scope.

(* ================================================================= *)
(** ** JavaScript string primitives *)

Module JS.

(** Truthiness of a string: only the empty string is falsy. *)
Definition truthy (s : string) : bool := negb (s =? "").

(** [s.startsWith(p)] *)
Definition startsWith (s p : string) : bool := String.prefix p s.

(** [s.endsWith(p)] *)
Fixpoint endsWith (s p : string) : bool :=
  (s =? p) ||
  match s with
  | EmptyString => false
  | String _ s' => endsWith s' p
  end.

(** [s.includes(p)] *)
Fixpoint includes (s p : string) : bool :=
  String.prefix p s ||
  match s with
  | EmptyString => false
  | String _ s' => includes s' p
  end.

(** [s.slice(n)] for a non-negative [n]. *)
Fixpoint slice (n : nat) (s : string) : string :=
  match n, s with
  | O, _ => s
  | S _, EmptyString => EmptyString
  | S n', String _ s' => slice n' s'
  end.

(** [a || b] on strings. *)
Definition or_else (a b : string) : string := if truthy a then a else b.

(** [s.split(c)] for a one-character separator; never the empty list. *)
Fixpoint split (c : ascii) (s : string) : list string :=
  match s with
  | EmptyString => [EmptyString]
  | String a s' =>
      if Ascii.eqb a c then EmptyString :: split c s'
      else match split c s' with
           | h :: t => String a h :: t
           | [] => [String a EmptyString]
           end
  end.

(** [s.replace(p, r)] with a string pattern: the first occurrence only. *)
Fixpoint replace (p r : string) (s : string) : string :=
  if String.prefix p s then r ++ slice (String.length p) s
  else match s with
       | EmptyString => EmptyString
       | String c s' => String c (replace p r s')
       end.

(** [s.replace(/p$/, '')] for a literal [p]: drop [p] when [s] ends with it. *)
Definition stripSuffix (p : string) (s : string) : string :=
  if endsWith s p then substring 0 (String.length s - String.length p) s
  else s.

(** [s.replace(/\/+/g, '/')]: every run of slashes becomes one slash. *)
Fixpoint collapseSlashes (inRun : bool) (s : string) : string :=
  match s with
  | EmptyString => EmptyString
  | String c s' =>
      if Ascii.eqb c "/" then
        if inRun then collapseSlashes true s'
        else String "/" (collapseSlashes true s')
      else String c (collapseSlashes false s')
  end.

(** [s.replace(/([^:])\/+/g, '$1/')]: a character other than ':' followed
    by a run of slashes keeps the character and one slash.  [skipping]
    says that the previous character opened such a match, whose slashes
    are being consumed. *)
Fixpoint collapseAfterNonColon (skipping : bool) (s : string) : string :=
  match s with
  | EmptyString => EmptyString
  | String c s' =>
      if skipping && Ascii.eqb c "/" then collapseAfterNonColon true s'
      else if negb (Ascii.eqb c ":") && startsWith s' "/"
      then String c (String "/" (collapseAfterNonColon true s'))
      else String c (collapseAfterNonColon false s')
  end.

(** [c.toLowerCase()] on one code unit: A-Z, and the upper-case letters of
    Latin-1 (U+00C0..U+00DE without the multiplication sign U+00D7). *)
Definition lowerChar (c : ascii) : ascii :=
  let n := nat_of_ascii c in
  if (Nat.leb 65 n && Nat.leb n 90) ||
     (Nat.leb 192 n && Nat.leb n 222 && negb (Nat.eqb n 215))
  then ascii_of_nat (n + 32) else c.

(** [s.toLowerCase()] *)
Fixpoint toLowerCase (s : string) : string :=
  match s with
  | EmptyString => EmptyString
  | String c s' => String (lowerChar c) (toLowerCase s')
  end.

(** A [Set<string>] in insertion order. *)
Definition has (set : list string) (x : string) : bool :=
  existsb (String.eqb x) set.

Definition add (x : string) (set : list string) : list string :=
  if has set x then set else set ++ [x].

(** [arr.includes(x)] on an array of strings. *)
Definition arrIncludes (arr : list string) (x : string) : bool :=
  existsb (String.eqb x) arr.

End JS.

(* ================================================================= *)
(** ** Regular expressions *)

Module Regex.

(** One-character classes. *)
Inductive cls : Type :=
| CChr (c : ascii)        (* a literal character *)
| CDot                    (* [.] : anything but a line terminator *)
| CNot (c : ascii).       (* [[^c]] *)

Inductive regex : Type :=
| Empty
| Bos                                 (* [^] *)
| Eos                                 (* [$] *)
| Atom (c : cls)
| Cat (a b : regex)
| Alt (a b : regex)
| Opt (a : regex)                     (* [a?], greedy *)
| Star (c : cls)                      (* [c*], greedy *)
| Group (n : nat) (a : regex).        (* capturing group number [n] *)

Definition isLineTerminator (c : ascii) : bool :=
  Ascii.eqb c "010" || Ascii.eqb c "013".

Definition inCls (k : cls) (c : ascii) : bool :=
  match k with
  | CChr d => Ascii.eqb c d
  | CDot => negb (isLineTerminator c)
  | CNot d => negb (Ascii.eqb c d)
  end.

(** A literal string. *)
Fixpoint lit (s : string) : regex :=
  match s with
  | EmptyString => Empty
  | String c s' => Cat (Atom (CChr c)) (lit s')
  end.

(** [a1|a2|...|an] over literal alternatives, as [list.join('|')] builds it. *)
Fixpoint altOf (l : list string) : regex :=
  match l with
  | [] => Empty
  | [a] => lit a
  | a :: l' => Alt (lit a) (altOf l')
  end.

(** Captures: group number to captured text; an absent group is
    [undefined]. *)
Definition captures := list (nat * string).

Fixpoint capture (n : nat) (cs : captures) : option string :=
  match cs with
  | [] => None
  | (m, s) :: cs' => if Nat.eqb m n then Some s else capture n cs'
  end.

Definition setCapture (n : nat) (s : string) (cs : captures) : captures :=
  (n, s) :: cs.

(** Continuations receive the position reached, the rest of the input and
    the captures. *)
Definition kont := nat -> string -> captures -> option captures.

Fixpoint star (c : cls) (pos : nat) (s : string) (cs : captures) (k : kont)
  : option captures :=
  match s with
  | String a s' =>
      if inCls c a then
        match star c (S pos) s' cs k with
        | Some r => Some r
        | None => k pos s cs
        end
      else k pos s cs
  | EmptyString => k pos s cs
  end.

Fixpoint run (r : regex) (pos : nat) (s : string) (cs : captures) (k : kont)
  : option captures :=
  match r with
  | Empty => k pos s cs
  | Bos => if Nat.eqb pos 0 then k pos s cs else None
  | Eos => match s with EmptyString => k pos s cs | _ => None end
  | Atom c =>
      match s with
      | String a s' => if inCls c a then k (S pos) s' cs else None
      | EmptyString => None
      end
  | Cat a b => run a pos s cs (fun pos' s' cs' => run b pos' s' cs' k)
  | Alt a b =>
      match run a pos s cs k with
      | Some x => Some x
      | None => run b pos s cs k
      end
  | Opt a =>
      match run a pos s cs
              (fun pos' s' cs' =>
                 if Nat.eqb pos' pos then None else k pos' s' cs') with
      | Some x => Some x
      | None => k pos s cs
      end
  | Star c => star c pos s cs k
  | Group n a =>
      run a pos s cs
        (fun pos' s' cs' =>
           k pos' s' (setCapture n (substring 0 (pos' - pos) s) cs'))
  end.

Definition accept : kont := fun _ _ cs => Some cs.

(** [re.exec(s)] without the [g] flag: the first start position, from the
    left, at which the pattern matches. *)
Fixpoint scan (r : regex) (pos : nat) (s : string) : option captures :=
  match run r pos s [] accept with
  | Some cs => Some cs
  | None =>
      match s with
      | EmptyString => None
      | String _ s' => scan r (S pos) s'
      end
  end.

Definition exec (r : regex) (s : string) : option captures := scan r 0 s.

(** [re.test(s)] *)
Definition test (r : regex) (s : string) : bool :=
  match exec r s with Some _ => true | None => false end.

(** No line terminator anywhere in the string: every character is one
    that [.] accepts. *)
Fixpoint noLineTerminator (s : string) : bool :=
  match s with
  | EmptyString => true
  | String c s' => negb (isLineTerminator c) && noLineTerminator s'
  end.

(** What a pattern can consume: [matches r s s'] when [r], started on [s],
    can stop with [s'] left. *)
Inductive matches : regex -> string -> string -> Prop :=
| MEmpty s : matches Empty s s
| MBos s : matches Bos s s
| MEos : matches Eos "" ""
| MAtom c a s : inCls c a = true -> matches (Atom c) (String a s) s
| MCat a b s s1 s2 :
    matches a s s1 -> matches b s1 s2 -> matches (Cat a b) s s2
| MAltL a b s s' : matches a s s' -> matches (Alt a b) s s'
| MAltR a b s s' : matches b s s' -> matches (Alt a b) s s'
| MOptSkip a s : matches (Opt a) s s
| MOptTake a s s' : matches a s s' -> matches (Opt a) s s'
| MStarStop c s : matches (Star c) s s
| MStarStep c a s s' :
    inCls c a = true -> matches (Star c) s s' ->
    matches (Star c) (String a s) s'
| MGroup n a s s' : matches a s s' -> matches (Group n a) s s'.

End Regex.

(* ================================================================= *)
(** ** The bundler configuration: the language router *)

Module ViteConfig.
Import JS Regex.

Definition SUPPORTED_LANGUAGES : list string :=
  ["en"; "de"; "es"; "zh"; "zh-TW"; "vi"; "it"; "id"; "tr"; "fr"; "pt"].

(** The pattern built from the list: start of input, a slash, group 1 with
    the alternation of the language codes, an optional non-capturing
    group made of a slash and group 2 (any run of [.]), end of input. *)
Definition LANG_REGEX : regex :=
  Cat Bos
    (Cat (Atom (CChr "/"))
       (Cat (Group 1 (altOf SUPPORTED_LANGUAGES))
          (Cat (Opt (Cat (Atom (CChr "/")) (Group 2 (Star CDot))))
             Eos))).

(** What the process sees of its surroundings: the [BASE_URL] environment
    variable and the file system below [__dirname].  A path is given by
    the segments handed to [resolve(__dirname, ...)]. *)
Record Env : Type := {
  BASE_URL : option string;
  existsSync : list string -> bool;
  readdirSync : list string -> list string
}.

Definition rootPages : list string :=
  ["index"; "about"; "contact"; "faq"; "privacy"; "terms"; "licensing";
   "tools"; "404"; "pdf-converter"; "pdf-editor"; "pdf-security";
   "pdf-merge-split"].

Definition loadPages (env : Env) : list string :=
  let pagesDir := ["src/pages"] in
  let pages :=
    if existsSync env pagesDir then
      fold_left
        (fun pages file =>
           if endsWith file ".html" then add (replace ".html" "" file) pages
           else pages)
        (readdirSync env pagesDir) []
    else [] in
  fold_left (fun pages p => add p pages) rootPages pages.

Definition PAGES (env : Env) : list string := loadPages env.

(** [(process.env.BASE_URL || '/').replace(/\/$/, '')] *)
Definition getBasePath (env : Env) : string :=
  stripSuffix "/"
    (match BASE_URL env with
     | Some b => or_else b "/"
     | None => "/"
     end).

Record IncomingMessage : Type := { url : option string }.

Record ServerResponse : Type := {
  statusCode : nat;
  headers : list (string * string);
  ended : bool
}.

(** The state a call of the middleware leaves behind, and whether it
    called [next()]. *)
Record Handled : Type := {
  req_out : IncomingMessage;
  res_out : ServerResponse;
  next_called : bool
}.

Definition next (req : IncomingMessage) (res : ServerResponse) : Handled :=
  {| req_out := req; res_out := res; next_called := true |}.

Definition setUrl (u : string) (req : IncomingMessage) : IncomingMessage :=
  {| url := Some u |}.

Definition setHeader (k v : string) (res : ServerResponse) : ServerResponse :=
  {| statusCode := statusCode res;
     headers := (k, v) :: headers res;
     ended := ended res |}.

Definition setStatus (n : nat) (res : ServerResponse) : ServerResponse :=
  {| statusCode := n; headers := headers res; ended := ended res |}.

Definition endResponse (res : ServerResponse) : ServerResponse :=
  {| statusCode := statusCode res; headers := headers res; ended := true |}.

(** [queryString ? `?${queryString}` : ''] *)
Definition querySuffix (queryString : option string) : string :=
  match queryString with
  | Some q => if truthy q then "?" ++ q else ""
  | None => ""
  end.

(** Lines 80-87: strip the base path, guarantee a leading slash. *)
Definition normalizePath (basePath fullPathname : string) : string :=
  let pathname := fullPathname in
  let pathname :=
    if truthy basePath && negb (basePath =? "/")
       && startsWith pathname basePath
    then or_else (slice (String.length basePath) pathname) "/"
    else pathname in
  if negb (startsWith pathname "/") then "/" ++ pathname else pathname.

(** [pathname.match(LANG_REGEX)] with [match[1]] and [match[2] ?? '']. *)
Definition matchLang (pathname : string) : option (string * string) :=
  match exec LANG_REGEX pathname with
  | Some cs =>
      Some (match capture 1 cs with Some l => l | None => "undefined" end,
            match capture 2 cs with Some r => r | None => "" end)
  | None => None
  end.

(** Lines 176-189: what happens to a request whose path carries no
    language prefix. *)
Definition unprefixedRoute (env : Env) (isDev : bool)
    (pathname : string) (queryString : option string)
    (req : IncomingMessage) (res : ServerResponse) : Handled :=
  if isDev && endsWith pathname ".html"
     && negb (startsWith pathname "/src/") then
    let pageName := replace ".html" "" (slice 1 pathname) in
    if has (PAGES env) pageName
       && existsSync env ["src/pages"; pageName ++ ".html"] then
      next (setUrl ("/src/pages/" ++ pageName ++ ".html"
                      ++ querySuffix queryString) req) res
    else next req res
  else next req res.

Definition createLanguageMiddleware (env : Env) (isDev : bool)
    (req : IncomingMessage) (res : ServerResponse) : Handled :=
  match url req with
  | None => next req res
  | Some u =>
    if negb (truthy u) then next req res else
    let basePath := getBasePath env in
    let parts := split "?" u in
    let fullPathname := hd "" parts in
    let queryString := nth_error parts 1 in
    let pathname := normalizePath basePath fullPathname in
    match matchLang pathname with
    | Some (lang, rest) =>
        if (rest =? "") && negb (endsWith pathname "/") then
          let redirectUrl :=
            if truthy basePath then basePath ++ "/" ++ lang ++ "/"
            else "/" ++ lang ++ "/" in
          {| req_out := req;
             res_out :=
               endResponse
                 (setHeader "Location" (redirectUrl ++ querySuffix queryString)
                    (setStatus 302 res));
             next_called := false |}
        else if (rest =? "") || (rest =? "/") then
          if isDev then
            next (setUrl ("/index.html" ++ querySuffix queryString) req) res
          else if existsSync env ["dist"; lang; "index.html"] then
            next (setUrl ("/" ++ lang ++ "/index.html"
                            ++ querySuffix queryString) req) res
          else
            next (setUrl ("/index.html" ++ querySuffix queryString) req) res
        else
          let cleanPath := stripSuffix ".html" (stripSuffix "/" rest) in
          let pageName := hd "" (split "/" cleanPath) in
          if truthy pageName && has (PAGES env) pageName then
            if isDev then
              if existsSync env ["src/pages"; pageName ++ ".html"] then
                next (setUrl ("/src/pages/" ++ pageName ++ ".html"
                                ++ querySuffix queryString) req) res
              else
                next (setUrl ("/" ++ pageName ++ ".html"
                                ++ querySuffix queryString) req) res
            else
              if existsSync env ["dist"; lang; pageName ++ ".html"] then
                next (setUrl ("/" ++ lang ++ "/" ++ pageName ++ ".html"
                                ++ querySuffix queryString) req) res
              else
                next (setUrl ("/" ++ pageName ++ ".html"
                                ++ querySuffix queryString) req) res
          else if negb (includes cleanPath ".") then
            if isDev then
              next (setUrl ("/" ++ cleanPath ++ ".html"
                              ++ querySuffix queryString) req) res
            else
              if existsSync env ["dist"; lang; cleanPath ++ ".html"] then
                next (setUrl ("/" ++ lang ++ "/" ++ cleanPath ++ ".html"
                                ++ querySuffix queryString) req) res
              else
                next (setUrl ("/" ++ cleanPath ++ ".html"
                                ++ querySuffix queryString) req) res
          else next req res
    | None => unprefixedRoute env isDev pathname queryString req res
    end
  end.

(** A fresh response, as the server creates it. *)
Definition freshResponse : ServerResponse :=
  {| statusCode := 200; headers := []; ended := false |}.

(** The first segment of a normalized path: what stands between the
    leading slash and the next one. *)
Definition firstSegment (pathname : string) : string :=
  hd "" (split "/" (slice 1 pathname)).

(** A request target: a path, and a query string after a question mark
    when there is one. *)
Definition attachQuery (path : string) (query : option string) : string :=
  match query with
  | Some q => path ++ "?" ++ q
  | None => path
  end.

(** The query string holds no further question mark. *)
Definition plainQuery (query : option string) : bool :=
  match query with
  | Some q => negb (includes q "?")
  | None => true
  end.

Definition samePath (a b : list string) : bool :=
  if list_eq_dec string_dec a b then true else false.

(** A tree with the pages directory, two tool pages, and a German copy of
    one of them in the compiled output; no base path. *)
Definition demoEnv : Env :=
  {| BASE_URL := None;
     existsSync := fun path =>
       samePath path ["src/pages"]
       || samePath path ["src/pages"; "merge-pdf.html"]
       || samePath path ["dist"; "de"; "merge-pdf.html"];
     readdirSync := fun _ => ["merge-pdf.html"; "split-pdf.html"] |}.

(** The same site served below [/pdf/], every compiled copy present. *)
Definition pdfEnv : Env :=
  {| BASE_URL := Some "/pdf/";
     existsSync := fun _ => true;
     readdirSync := fun _ => ["merge-pdf.html"; "split-pdf.html"] |}.


End ViteConfig.

(* ================================================================= *)
(** ** The browser side: [src/js/i18n/i18n.ts] *)

Module I18n.
Import JS Regex.

Definition supportedLanguages : list string :=
  ["en"; "fr"; "de"; "es"; "ru"; "zh"; "zh-TW"; "vi"; "tr"; "id"; "it"; "pt"].

(** The alternation written out in the three patterns of the file:
    [en|fr|es|de|ru|zh|zh-TW|vi|tr|id|it|pt]. *)
Definition langAlternation : list string :=
  ["en"; "fr"; "es"; "de"; "ru"; "zh"; "zh-TW"; "vi"; "tr"; "id"; "it"; "pt"].

(** The page as the helpers see it: the build-time [import.meta.env.BASE_URL],
    [window.location], [localStorage], and the URL last assigned to
    [window.location.href], if any. *)
Record Browser : Type := {
  BASE_URL : string;
  pathname : string;
  search : string;
  hash : string;
  localStorage : string -> option string;
  assignedHref : option string
}.

Definition setItem (k v : string) (st : string -> option string)
  : string -> option string :=
  fun k' => if k' =? k then Some v else st k'.

(** Lines 38-47, 111-120: the path relative to the base path. *)
Definition relativePath (basePath path : string) : string :=
  let path :=
    if truthy basePath && negb (basePath =? "/") && startsWith path basePath
    then or_else (slice (String.length basePath) path) "/"
    else path in
  if negb (startsWith path "/") then "/" ++ path else path.

(** Start of input, a slash, group 1 with the alternation, then a slash or
    the end of input (line 50). *)
Definition urlLangRegex : regex :=
  Cat Bos
    (Cat (Atom (CChr "/"))
       (Cat (Group 1 (altOf langAlternation))
          (Alt (Atom (CChr "/")) Eos))).

Definition getLanguageFromUrl (b : Browser) : string :=
  let basePath := stripSuffix "/" (BASE_URL b) in
  let path := relativePath basePath (pathname b) in
  let fromUrl :=
    match exec urlLangRegex path with
    | Some cs =>
        match capture 1 cs with
        | Some l => if arrIncludes supportedLanguages l then Some l else None
        | None => None
        end
    | None => None
    end in
  match fromUrl with
  | Some l => l
  | None =>
      match localStorage b "i18nextLng" with
      | Some storedLang =>
          if truthy storedLang && arrIncludes supportedLanguages storedLang
          then storedLang else "en"
      | None => "en"
      end
  end.

(** Start of input, a slash, group 1 with the alternation, an optional
    group 2 made of a slash and any run of [.], end of input (line 124). *)
Definition langPrefixPathRegex : regex :=
  Cat Bos
    (Cat (Atom (CChr "/"))
       (Cat (Group 1 (altOf langAlternation))
          (Cat (Opt (Group 2 (Cat (Atom (CChr "/")) (Star CDot))))
             Eos))).

Definition changeLanguage (lang : string) (b : Browser) : Browser :=
  if negb (arrIncludes supportedLanguages lang) then b else
  let storage := setItem "i18nextLng" lang (localStorage b) in
  let basePath := stripSuffix "/" (BASE_URL b) in
  let relPath := relativePath basePath (pathname b) in
  let pagePathWithoutLang :=
    match exec langPrefixPathRegex relPath with
    | Some cs =>
        match capture 2 cs with
        | Some r => or_else r "/"
        | None => "/"
        end
    | None => relPath
    end in
  let pagePathWithoutLang :=
    if negb (startsWith pagePathWithoutLang "/")
    then "/" ++ pagePathWithoutLang else pagePathWithoutLang in
  let newRelativePath :=
    if lang =? "en" then pagePathWithoutLang
    else "/" ++ lang ++ pagePathWithoutLang in
  let newPath :=
    if truthy basePath && negb (basePath =? "/")
    then basePath ++ newRelativePath else newRelativePath in
  let newPath := collapseSlashes false newPath in
  let newUrl := newPath ++ search b ++ hash b in
  {| BASE_URL := BASE_URL b;
     pathname := pathname b;
     search := search b;
     hash := hash b;
     localStorage := storage;
     assignedHref := Some newUrl |}.

(** The pattern of line 216: start of input, an optional group 1 holding
    the (escaped, hence literal) base path, a slash, group 2 with the
    alternation, group 3 with a slash or the end of input. *)
Definition langPrefixRegex (basePath : string) : regex :=
  Cat Bos
    (Cat (Opt (Group 1 (lit basePath)))
       (Cat (Atom (CChr "/"))
          (Cat (Group 2 (altOf langAlternation))
             (Group 3 (Alt (Atom (CChr "/")) Eos))))).

(** Lines 222-240: where the language segment goes. *)
Definition newHrefFor (basePath currentLang href : string) : string :=
  if truthy basePath && negb (basePath =? "/")
     && startsWith href basePath then
    let pathAfterBase := slice (String.length basePath) href in
    basePath ++ "/" ++ currentLang ++ pathAfterBase
  else if startsWith href "/" then
    if truthy basePath && negb (basePath =? "/")
    then basePath ++ "/" ++ currentLang ++ href
    else "/" ++ currentLang ++ href
  else if (href =? "") || (href =? "index.html") then
    if truthy basePath && negb (basePath =? "/")
    then basePath ++ "/" ++ currentLang ++ "/"
    else "/" ++ currentLang ++ "/"
  else currentLang ++ "/" ++ href.

(** The body of the [forEach] of [rewriteLinks], on the value of one
    [href] attribute: the value the attribute has afterwards. *)
Definition rewriteHref (basePath currentLang href : string) : string :=
  if negb (truthy href) then href
  else if startsWith href "http" || startsWith href "//"
          || startsWith href "mailto:" || startsWith href "tel:"
          || startsWith href "#" || startsWith href "javascript:"
  then href
  else if includes href "/assets/" then href
  else if test (langPrefixRegex basePath) href then href
  else collapseAfterNonColon false (newHrefFor basePath currentLang href).

(** The anchors of the document, each with the value of its [href]
    attribute ([None]: no such attribute, not selected by [a[href]]). *)
Definition Document := list (option string).

Definition rewriteLinks (b : Browser) (doc : Document) : Document :=
  let currentLang := getLanguageFromUrl b in
  if currentLang =? "en" then doc else
  let basePath := stripSuffix "/" (BASE_URL b) in
  map (fun a =>
         match a with
         | Some href => Some (rewriteHref basePath currentLang href)
         | None => None
         end) doc.

(** A visitor on a page of the site served at the root, nothing stored. *)
Definition visitorAt (path : string) : Browser :=
  {| BASE_URL := "/";
     pathname := path;
     search := "";
     hash := "";
     localStorage := fun _ => None;
     assignedHref := None |}.

End I18n.

(* ================================================================= *)
(** ** The PDF-to-FB2 tool page: the file list *)

Module PdfToFb2.
Import JS.

Record File : Type := { name : string; type : string; size : nat }.

(** The module state: the [files] array, the alerts shown so far (title and
    message, latest first) and the number of [updateUI] calls. *)
Record Page : Type := {
  files : list File;
  alerts : list (string * string);
  uiUpdates : nat
}.

Definition initialPage : Page :=
  {| files := []; alerts := []; uiUpdates := 0 |}.

Definition showAlert (title message : string) (p : Page) : Page :=
  {| files := files p;
     alerts := (title, message) :: alerts p;
     uiUpdates := uiUpdates p |}.

Definition updateUI (p : Page) : Page :=
  {| files := files p; alerts := alerts p; uiUpdates := S (uiUpdates p) |}.

Definition setFiles (fs : list File) (p : Page) : Page :=
  {| files := fs; alerts := alerts p; uiUpdates := uiUpdates p |}.

(** The predicate of the [filter] in [handleFiles]. *)
Definition isPdf (file : File) : bool :=
  (type file =? "application/pdf")
  || endsWith (toLowerCase (name file)) ".pdf".

Definition handleFiles (newFiles : list File) (p : Page) : Page :=
  let validFiles := filter isPdf newFiles in
  let p :=
    if Nat.ltb (List.length validFiles) (List.length newFiles)
    then showAlert "Invalid Files"
           "Some files were skipped. Only PDF files are allowed." p
    else p in
  if Nat.ltb 0 (List.length validFiles)
  then updateUI (setFiles (files p ++ validFiles) p)
  else p.

(** [handleFileUpload] and the [drop] listener: both call [handleFiles]
    when the list is there and not empty. *)
Definition handleFileUpload (inputFiles : option (list File)) (p : Page)
  : Page :=
  match inputFiles with
  | Some fl => if Nat.ltb 0 (List.length fl) then handleFiles fl p else p
  | None => p
  end.

Definition resetState (p : Page) : Page := updateUI (setFiles [] p).

(** [files.filter((_, i) => i !== index)] *)
Fixpoint removeAt (index : nat) (l : list File) : list File :=
  match l, index with
  | [], _ => []
  | _ :: l', O => l'
  | x :: l', S i => x :: removeAt i l'
  end.

(** Everything on the page that assigns [files]. *)
Inductive Event : Type :=
| FileInputChange (fl : option (list File))
| Drop (fl : option (list File))
| ClearFiles
| RemoveClicked (index : nat)
| ConversionDone.

Definition step (e : Event) (p : Page) : Page :=
  match e with
  | FileInputChange fl => handleFileUpload fl p
  | Drop fl => handleFileUpload fl p
  | ClearFiles => updateUI (setFiles [] p)
  | RemoveClicked i => updateUI (setFiles (removeAt i (files p)) p)
  | ConversionDone => resetState p
  end.

Definition runEvents (es : list Event) (p : Page) : Page :=
  fold_left (fun p e => step e p) es p.

(** A name that ends in [.pdf], in any mix of upper and lower case. *)
Definition pdfName (n : string) : Prop :=
  exists stem e1 e2 e3,
    n = stem ++ String "." (String e1 (String e2 (String e3 "")))
    /\ (e1 = "p" \/ e1 = "P")%char
    /\ (e2 = "d" \/ e2 = "D")%char
    /\ (e3 = "f" \/ e3 = "F")%char.

Definition allPdf (l : list File) : Prop :=
  Forall (fun f => isPdf f = true) l.

Definition skippedAlert : string * string :=
  ("Invalid Files", "Some files were skipped. Only PDF files are allowed.").

End PdfToFb2.

(* ================================================================= *)
(** ** Replacing by pattern *)

Module RegexReplace.
Import JS Regex.

(** [s.replace(re, rep)] without the [g] flag, for a replacement text free
    of dollar patterns: the input is copied up to the first position at
    which the pattern matches, the match (group 0) is replaced, the rest is
    copied.  The end of the input is a position too. *)
Fixpoint replaceAt (r : regex) (rep : string) (pos : nat) (s : string)
  : string :=
  match run (Group 0 r) pos s [] accept with
  | Some cs =>
      rep ++ slice (String.length
                      (match capture 0 cs with Some m => m | None => "" end)) s
  | None =>
      match s with
      | EmptyString => EmptyString
      | String c s' => String c (replaceAt r rep (S pos) s')
      end
  end.

Definition replaceFirst (r : regex) (rep : string) (s : string) : string :=
  replaceAt r rep 0 s.

(** [s.replace(/c/g, rep)] for one literal character [c]. *)
Fixpoint replaceChar (c : ascii) (rep : string) (s : string) : string :=
  match s with
  | EmptyString => EmptyString
  | String a s' =>
      if Ascii.eqb a c then rep ++ replaceChar c rep s'
      else String a (replaceChar c rep s')
  end.

End RegexReplace.

(* ================================================================= *)
(** ** The bundler configuration: [base] and the page flattening plugin *)

Module BundlePlugins.
Import JS Regex RegexReplace.

(** An optional slash, then the end of input: the pattern of
    [replace(/\/?$/, '/')]. *)
Definition trailingSlashRegex : regex := Cat (Opt (Atom (CChr "/"))) Eos.

(** Line 312, the [base] option passed to the bundler:
    [(process.env.BASE_URL || '/').replace(/\/?$/, '/')]. *)
Definition configBase (env : ViteConfig.Env) : string :=
  replaceFirst trailingSlashRegex "/"
    (match ViteConfig.BASE_URL env with
     | Some b => or_else b "/"
     | None => "/"
     end).

(** An entry of the output bundle; of its fields the plugin reads and
    writes [fileName] only. *)
Record Asset : Type := { fileName : string; source : string }.

(** The bundle object: file name to entry, keys in insertion order.  (Keys
    that read as array indices come first in [Object.keys]; none of them
    ends in [.html], so the loop passes them by wherever they stand.)  Each
    entry is an object of its own: no two keys share one. *)
Definition Bundle := list (string * Asset).

Definition keys (b : Bundle) : list string := map fst b.

Fixpoint lookup (k : string) (b : Bundle) : option Asset :=
  match b with
  | [] => None
  | (k', a) :: b' => if k' =? k then Some a else lookup k b'
  end.

(** [bundle[k] = a]: an existing key keeps its place, a new one goes last. *)
Fixpoint assign (k : string) (a : Asset) (b : Bundle) : Bundle :=
  match b with
  | [] => [(k, a)]
  | (k', a') :: b' =>
      if k' =? k then (k, a) :: b' else (k', a') :: assign k a b'
  end.

(** [delete bundle[k]] *)
Definition remove (k : string) (b : Bundle) : Bundle :=
  filter (fun e => negb (fst e =? k)) b.

Definition renamed (newFileName : string) (a : Asset) : Asset :=
  {| fileName := newFileName; source := source a |}.

(** One round of the loop of [flattenPagesPlugin] (lines 211-216).  [None]
    stands for the [TypeError] of assigning [fileName] on [undefined]. *)
Definition flattenOne (name : string) (bundle : Bundle) : option Bundle :=
  if startsWith name "src/pages/" && endsWith name ".html" then
    let newFileName := replace "src/pages/" "" name in
    match lookup name bundle with
    | Some a =>
        Some (remove name (assign newFileName (renamed newFileName a) bundle))
    | None => None
    end
  else Some bundle.

(** The loop over [Object.keys(bundle)], a list taken before the first
    round. *)
Fixpoint flattenKeys (ks : list string) (bundle : Bundle) : option Bundle :=
  match ks with
  | [] => Some bundle
  | k :: ks' =>
      match flattenOne k bundle with
      | Some bundle' => flattenKeys ks' bundle'
      | None => None
      end
  end.

(** Lines 218-222, with [simpleMode] the value of [process.env.SIMPLE_MODE]. *)
Definition simpleIndex (simpleMode : option string) (bundle : Bundle)
  : Bundle :=
  match simpleMode, lookup "simple-index.html" bundle with
  | Some m, Some a =>
      if m =? "true" then
        remove "simple-index.html"
          (assign "index.html" (renamed "index.html" a) bundle)
      else bundle
  | _, _ => bundle
  end.

(** [generateBundle] of [flattenPagesPlugin]. *)
Definition flattenPages (simpleMode : option string) (bundle : Bundle)
  : option Bundle :=
  match flattenKeys (keys bundle) bundle with
  | Some bundle' => Some (simpleIndex simpleMode bundle')
  | None => None
  end.

(** A key the loop moves. *)
Definition isPageKey (k : string) : bool :=
  startsWith k "src/pages/" && endsWith k ".html".

(** Every entry is filed under its own [fileName]. *)
Definition consistent (b : Bundle) : Prop :=
  forall k a, In (k, a) b -> fileName a = k.

(** Where the page filed under [k] with entry [a] stands while the loop
    runs over the keys [ks] still to visit: not visited yet, or moved to
    its flat name. *)
Definition movedOrPending (k : string) (a : Asset) (ks : list string)
    (b : Bundle) : Prop :=
  (In k ks /\ lookup k b = Some a /\ ~ In (slice 10 k) (keys b)) \/
  (~ In k ks /\
   lookup (slice 10 k) b = Some (renamed (slice 10 k) a) /\
   ~ In k (keys b)).

Definition demoBundle : Bundle :=
  [("index.html", {| fileName := "index.html"; source := "home" |});
   ("src/pages/merge-pdf.html",
    {| fileName := "src/pages/merge-pdf.html"; source := "merge" |});
   ("simple-index.html",
    {| fileName := "simple-index.html"; source := "simple" |});
   ("assets/app.js", {| fileName := "assets/app.js"; source := "js" |})].

(** [demoBundle] after flattening in simple mode. *)
Definition demoFlat : Bundle :=
  [("index.html", {| fileName := "index.html"; source := "simple" |});
   ("assets/app.js", {| fileName := "assets/app.js"; source := "js" |});
   ("merge-pdf.html", {| fileName := "merge-pdf.html"; source := "merge" |})].

End BundlePlugins.

(* ================================================================= *)
(** ** The PDF-to-FB2 tool page: text helpers *)

Module Fb2Text.
Import JS Regex RegexReplace.

(** [escapeXml]: five global replacements, the ampersand first. *)
Definition escapeXml (value : string) : string :=
  replaceChar "'" "&apos;"
    (replaceChar "034" "&quot;"
       (replaceChar ">" "&gt;"
          (replaceChar "<" "&lt;"
             (replaceChar "&" "&amp;" value)))).

(** What one character becomes in an XML text. *)
Definition escapeChar (c : ascii) : string :=
  if Ascii.eqb c "&" then "&amp;"
  else if Ascii.eqb c "<" then "&lt;"
  else if Ascii.eqb c ">" then "&gt;"
  else if Ascii.eqb c "034" then "&quot;"
  else if Ascii.eqb c "'" then "&apos;"
  else String c "".

Fixpoint escapeEach (s : string) : string :=
  match s with
  | EmptyString => EmptyString
  | String c s' => escapeChar c ++ escapeEach s'
  end.

Definition CR : ascii := "013".
Definition LF : ascii := "010".

(** [value.replace(/\r\n/g, '\n')] *)
Fixpoint replaceCRLF (s : string) : string :=
  match s with
  | EmptyString => EmptyString
  | String a s' =>
      match s' with
      | String b s'' =>
          if Ascii.eqb a CR && Ascii.eqb b LF
          then String LF (replaceCRLF s'')
          else String a (replaceCRLF s')
      | EmptyString => String a EmptyString
      end
  end.

(** [normalizeText] *)
Definition normalizeText (value : string) : string :=
  replaceChar CR (String LF "") (replaceCRLF value).

(** The pattern [\.pdf$] with the [i] flag: each letter in either case. *)
Definition pdfExtensionRegex : regex :=
  Cat (Atom (CChr "."))
    (Cat (Alt (Atom (CChr "p")) (Atom (CChr "P")))
       (Cat (Alt (Atom (CChr "d")) (Atom (CChr "D")))
          (Cat (Alt (Atom (CChr "f")) (Atom (CChr "F")))
             Eos))).

(** Lines 486 and 509: [file.name.replace(/\.pdf$/i, '')]. *)
Definition baseName (name : string) : string :=
  replaceFirst pdfExtensionRegex "" name.

(** The characters that open or close markup and attribute values. *)
Definition isMarkup (c : ascii) : Prop :=
  (c = "<" \/ c = ">" \/ c = "034" \/ c = "'")%char.

(** [.pdf] in any mix of upper and lower case. *)
Definition isExtension (e : string) : Prop :=
  exists e1 e2 e3,
    e = String "." (String e1 (String e2 (String e3 "")))
    /\ (e1 = "p" \/ e1 = "P")%char
    /\ (e2 = "d" \/ e2 = "D")%char
    /\ (e3 = "f" \/ e3 = "F")%char.

(** Lines 492 and 512: the name of the converted file. *)
Definition fb2Name (file : PdfToFb2.File) : string :=
  baseName (PdfToFb2.name file) ++ ".fb2".

End Fb2Text.

(* ================================================================= *)
(** ** Outcomes of the language router, pages of the browser *)

Module RouterOutcome.
Import JS ViteConfig.

(** Lines 97-103: a 302 answer with a [Location] header; [next()] is not
    called. *)
Definition redirectTo (location : string) (req : IncomingMessage)
    (res : ServerResponse) : Handled :=
  {| req_out := req;
     res_out := endResponse (setHeader "Location" location (setStatus 302 res));
     next_called := false |}.

End RouterOutcome.

Module Navigation.
Import JS I18n.

(** The page reached by loading [path] on the same site: same build, same
    storage, nothing assigned yet. *)
Definition navigate (b : Browser) (path : string) : Browser :=
  {| BASE_URL := BASE_URL b;
     pathname := path;
     search := search b;
     hash := hash b;
     localStorage := localStorage b;
     assignedHref := None |}.

(** A base path without doubled slashes and without a slash at its end. *)
Definition plainBase (basePath : string) : Prop :=
  collapseSlashes false basePath = basePath /\ endsWith basePath "/" = false.

(** The site served below [/pdf/]. *)
Definition pdfVisitorAt (path : string) : Browser :=
  {| BASE_URL := "/pdf/";
     pathname := path;
     search := "?tab=2";
     hash := "#top";
     localStorage := fun _ => None;
     assignedHref := None |}.

End Navigation.

(* ================================================================= *)
(** * Properties *)

Import JS Regex.

(** Take a derivation of [matches] apart, down to alternations of literals
    and stars. *)
Ltac invert_matches :=
  repeat match goal with
    | H : matches (Cat _ _) _ _ |- _ => inversion H; subst; clear H
    | H : matches (Atom _) _ _ |- _ => inversion H; subst; clear H
    | H : matches (Group _ _) _ _ |- _ => inversion H; subst; clear H
    | H : matches (Opt _) _ _ |- _ => inversion H; subst; clear H
    | H : matches (Alt _ _) _ _ |- _ => inversion H; subst; clear H
    | H : matches Eos _ _ |- _ => inversion H; subst; clear H
    | H : matches Bos _ _ |- _ => inversion H; subst; clear H
    | H : matches Empty _ _ |- _ => inversion H; subst; clear H
    end.

(** Case analysis over the languages of the server's list. *)
Ltac each_language H :=
  unfold ViteConfig.SUPPORTED_LANGUAGES in H; simpl in H;
  repeat (destruct H as [<-|H]); try contradiction.

(* ----------------------------------------------------------------- *)
(** ** Strings *)

Section StringFacts.

Lemma substring_all (s : string) : substring 0 (String.length s) s = s.
Proof. induction s as [|c s IH]; simpl; [reflexivity | now rewrite IH]. Qed.

Lemma includes_cons_false (a c : ascii) (s : string) :
  includes (String a s) (String c "") = false ->
  a <> c /\ includes s (String c "") = false.
Proof.
  simpl. intros H. apply orb_false_elim in H as [H1 H2]. split.
  - intros ->. destruct (ascii_dec c c); [|contradiction].
    destruct s; discriminate.
  - exact H2.
Qed.

(** A string without the separator is the only piece of its [split]. *)
Lemma split_none (c : ascii) (s : string) :
  includes s (String c "") = false -> split c s = [s].
Proof.
  induction s as [|a s IH]; intros H; [reflexivity |].
  apply includes_cons_false in H as [Hne Hs]. simpl.
  rewrite (IH Hs).
  destruct (Ascii.eqb_spec a c) as [->|_]; [contradiction | reflexivity].
Qed.

(** Splitting [p ++ c ++ q] when [p] is free of [c]. *)
Lemma split_app (c : ascii) (p q : string) :
  includes p (String c "") = false ->
  split c (p ++ String c q) = p :: split c q.
Proof.
  induction p as [|a p IH]; intros H.
  - simpl. now rewrite Ascii.eqb_refl.
  - apply includes_cons_false in H as [Hne Hp]. simpl.
    rewrite (IH Hp).
    destruct (Ascii.eqb_spec a c) as [->|_]; [contradiction | reflexivity].
Qed.

Lemma endsWith_no_sep (c : ascii) (s : string) :
  includes s (String c "") = false -> endsWith s (String c "") = false.
Proof.
  induction s as [|a s IH]; intros H; [reflexivity |].
  apply includes_cons_false in H as [Hne Hs]. simpl.
  rewrite (IH Hs), orb_false_r.
  destruct s; simpl.
  - destruct (Ascii.eqb_spec a c) as [->|_]; [contradiction | reflexivity].
  - destruct (Ascii.eqb a c); reflexivity.
Qed.

Lemma stripSuffix_absent (p s : string) :
  endsWith s p = false -> stripSuffix p s = s.
Proof. unfold stripSuffix. now intros ->. Qed.

Lemma append_empty_r (s : string) : s ++ "" = s.
Proof. induction s as [|c s IH]; simpl; [reflexivity | now rewrite IH]. Qed.

Lemma append_assoc (a b c : string) : (a ++ b) ++ c = a ++ b ++ c.
Proof. induction a as [|x a IH]; simpl; [reflexivity | now rewrite IH]. Qed.

End StringFacts.

(* ----------------------------------------------------------------- *)
(** ** The matcher *)

Section MatcherFacts.

(** The greedy star of [.] swallows a whole line when the continuation
    accepts at its end. *)
Lemma star_dot_all (s : string) :
  forall pos cs (k : kont) x,
    noLineTerminator s = true ->
    k (pos + String.length s) "" cs = Some x ->
    star CDot pos s cs k = Some x.
Proof.
  induction s as [|a s IH]; simpl; intros pos cs k x Hs Hk.
  - now rewrite Nat.add_0_r in Hk.
  - apply andb_true_iff in Hs as [Ha Hs]. rewrite Ha.
    rewrite (IH (S pos) cs k x Hs); [reflexivity |].
    rewrite Nat.add_succ_r in Hk. exact Hk.
Qed.

Lemma star_sound (c : cls) (s : string) :
  forall pos cs (k : kont) x,
    star c pos s cs k = Some x ->
    exists pos' s' cs', matches (Star c) s s' /\ k pos' s' cs' = Some x.
Proof.
  induction s as [|a s IH]; simpl; intros pos cs k x H.
  - exists pos, "", cs. split; [constructor | exact H].
  - destruct (inCls c a) eqn:Ha.
    + destruct (star c (S pos) s cs k) eqn:Hs.
      * injection H as <-.
        destruct (IH _ _ _ _ Hs) as (pos' & s' & cs' & Hm & Hk).
        exists pos', s', cs'. split; [now apply MStarStep | exact Hk].
      * exists pos, (String a s), cs. split; [constructor | exact H].
    + exists pos, (String a s), cs. split; [constructor | exact H].
Qed.

(** Whatever the matcher accepts, the pattern can consume. *)
Lemma run_sound (r : regex) :
  forall pos s cs (k : kont) x,
    run r pos s cs k = Some x ->
    exists pos' s' cs', matches r s s' /\ k pos' s' cs' = Some x.
Proof.
  induction r as [| | |c|a IHa b IHb|a IHa b IHb|a IHa|c|n a IHa];
    simpl; intros pos s cs k x H.
  - exists pos, s, cs. split; [constructor | exact H].
  - destruct (Nat.eqb pos 0); [|discriminate].
    exists pos, s, cs. split; [constructor | exact H].
  - destruct s; [|discriminate].
    exists pos, "", cs. split; [constructor | exact H].
  - destruct s as [|a s]; [discriminate |].
    destruct (inCls c a) eqn:Ha; [|discriminate].
    exists (S pos), s, cs. split; [now constructor | exact H].
  - destruct (IHa _ _ _ _ _ H) as (p1 & s1 & c1 & Hm1 & H1).
    destruct (IHb _ _ _ _ _ H1) as (p2 & s2 & c2 & Hm2 & H2).
    exists p2, s2, c2. split; [now apply MCat with s1 | exact H2].
  - destruct (run a pos s cs k) eqn:Ha.
    + injection H as <-.
      destruct (IHa _ _ _ _ _ Ha) as (p1 & s1 & c1 & Hm1 & H1).
      exists p1, s1, c1. split; [now apply MAltL | exact H1].
    + destruct (IHb _ _ _ _ _ H) as (p1 & s1 & c1 & Hm1 & H1).
      exists p1, s1, c1. split; [now apply MAltR | exact H1].
  - match type of H with
    | match ?e with _ => _ end = _ => destruct e eqn:Ha
    end.
    + injection H as <-.
      destruct (IHa _ _ _ _ _ Ha) as (p1 & s1 & c1 & Hm1 & H1).
      destruct (Nat.eqb p1 pos); [discriminate |].
      exists p1, s1, c1. split; [now apply MOptTake | exact H1].
    + exists pos, s, cs. split; [constructor | exact H].
  - now apply star_sound with pos cs.
  - destruct (IHa _ _ _ _ _ H) as (p1 & s1 & c1 & Hm1 & H1).
    eexists p1, s1, _. split; [now apply MGroup | exact H1].
Qed.

(** A pattern that opens with [^] is tried at the first position only. *)
Lemma scan_anchored (r : regex) (s : string) :
  forall pos, 0 < pos -> scan (Cat Bos r) pos s = None.
Proof.
  induction s as [|a s IH]; intros pos Hpos; simpl;
    destruct pos as [|pos]; try lia; simpl; [reflexivity |].
  apply IH. lia.
Qed.

Lemma exec_anchored (r : regex) (s : string) :
  exec (Cat Bos r) s = run r 0 s [] accept.
Proof.
  unfold exec. destruct s as [|a s]; simpl.
  - now destruct (run r 0 "" [] accept).
  - destruct (run r 0 (String a s) [] accept); [reflexivity |].
    apply scan_anchored. lia.
Qed.

(** What an alternation of literals consumes is one of the literals. *)
Lemma matches_lit (l s s' : string) :
  matches (lit l) s s' -> s = l ++ s'.
Proof.
  revert s. induction l as [|c l IH]; simpl; intros s H.
  - inversion H; reflexivity.
  - inversion H as [| | | |a b s0 s1 s2 H1 H2| | | | | | |]; subst.
    inversion H1; subst. simpl in *.
    match goal with
    | E : Ascii.eqb _ _ = true |- _ => apply Ascii.eqb_eq in E; subst
    end.
    simpl. f_equal. now apply IH.
Qed.

Lemma matches_altOf (ls : list string) (s s' : string) :
  ls <> [] ->
  matches (altOf ls) s s' -> exists l, In l ls /\ s = l ++ s'.
Proof.
  induction ls as [|a ls IH]; intros Hne H; [contradiction |].
  destruct ls as [|b ls].
  - exists a. split; [now left | now apply matches_lit].
  - change (altOf (a :: b :: ls)) with (Alt (lit a) (altOf (b :: ls))) in H.
    inversion H; subst.
    + exists a. split; [now left | now apply matches_lit].
    + destruct IH as (l & Hl & Hs); [discriminate | assumption |].
      exists l. split; [now right | exact Hs].
Qed.

End MatcherFacts.

(* ----------------------------------------------------------------- *)
(** ** The language matcher *)

Section LanguageMatcher.
Import ViteConfig.

Lemma matchLang_sub (L r : string) :
  In L SUPPORTED_LANGUAGES -> noLineTerminator r = true ->
  matchLang ("/" ++ L ++ "/" ++ r) = Some (L, r).
Proof.
  intros HL Hr. unfold matchLang, LANG_REGEX. rewrite exec_anchored.
  each_language HL; cbn;
    (erewrite star_dot_all; [ | exact Hr | cbn; reflexivity]);
    cbn; now rewrite Nat.sub_0_r, substring_all.
Qed.

Lemma matchLang_bare (L : string) :
  In L SUPPORTED_LANGUAGES -> matchLang ("/" ++ L) = Some (L, "").
Proof. intros HL. each_language HL; reflexivity. Qed.

Lemma language_nonempty (L : string) : In L SUPPORTED_LANGUAGES -> L <> "".
Proof. intros HL. each_language HL; discriminate. Qed.

Lemma firstSegment_language (L t : string) :
  In L SUPPORTED_LANGUAGES ->
  firstSegment ("/" ++ L) = L /\ firstSegment ("/" ++ L ++ "/" ++ t) = L.
Proof.
  intros HL. unfold firstSegment.
  each_language HL; simpl; destruct (split "/" t); split; reflexivity.
Qed.

(** The frame of [LANG_REGEX] around an arbitrary first group. *)
Lemma prefix_pattern_shape (alts : regex) (p : string) (cs : captures) :
  exec (Cat Bos
          (Cat (Atom (CChr "/"))
             (Cat (Group 1 alts)
                (Cat (Opt (Cat (Atom (CChr "/")) (Group 2 (Star CDot))))
                   Eos)))) p = Some cs ->
  exists s1 tail,
    p = String "/" s1 /\ matches alts s1 tail /\
    (tail = "" \/ exists t, tail = String "/" t).
Proof.
  rewrite exec_anchored. intros H.
  apply run_sound in H as (pos & s' & cs' & Hm & _).
  invert_matches;
    repeat match goal with
      | E : inCls (CChr _) _ = true |- _ =>
          simpl in E; apply Ascii.eqb_eq in E; subst
      end;
    do 2 eexists; (split; [reflexivity |]); (split; [eassumption |]).
  - now left.
  - right. eexists. reflexivity.
Qed.

(** Whatever [LANG_REGEX] accepts is a configured language, alone or
    followed by a slash and a remainder. *)
Lemma LANG_REGEX_shape (p : string) (cs : captures) :
  exec LANG_REGEX p = Some cs ->
  exists L, In L SUPPORTED_LANGUAGES /\
            (p = "/" ++ L \/ exists t, p = "/" ++ L ++ "/" ++ t).
Proof.
  intros H. apply prefix_pattern_shape in H as (s1 & tail & -> & Hm & Ht).
  apply matches_altOf in Hm as (L & HL & ->); [|discriminate].
  exists L. split; [exact HL |].
  destruct Ht as [->|(t & ->)].
  - left. now rewrite append_empty_r.
  - right. now exists t.
Qed.

Lemma matchLang_firstSegment (p : string) (m : string * string) :
  matchLang p = Some m -> In (firstSegment p) SUPPORTED_LANGUAGES.
Proof.
  unfold matchLang. destruct (exec LANG_REGEX p) as [cs|] eqn:E;
    [|discriminate].
  intros _. apply LANG_REGEX_shape in E as (L & HL & [->|(t & ->)]).
  - now rewrite (proj1 (firstSegment_language L "" HL)).
  - now rewrite (proj2 (firstSegment_language L t HL)).
Qed.

End LanguageMatcher.

(* ----------------------------------------------------------------- *)
(** ** The language router *)

Section LanguageRouter.
Import ViteConfig.

Variable env : Env.

Lemma normalizePath_empty (b : string) : normalizePath b "" = "/".
Proof.
  unfold normalizePath, startsWith.
  destruct b as [|c b]; [reflexivity |].
  change (String.prefix (String c b) "") with false.
  now rewrite andb_false_r.
Qed.

Lemma no_sep_not_sep (P : string) :
  includes P "/" = false -> (P =? "/") = false.
Proof.
  intros H. apply String.eqb_neq. intros ->. discriminate.
Qed.

Lemma truthy_true (s : string) : truthy s = true <-> s <> "".
Proof.
  unfold truthy. rewrite negb_true_iff. apply String.eqb_neq.
Qed.

(** Production, a known page below a language prefix: lines 121-150. *)
Lemma prod_known_page (L P u : string) (res : ServerResponse) :
  truthy u = true ->
  In L SUPPORTED_LANGUAGES ->
  has (PAGES env) P = true ->
  P <> "" ->
  includes P "/" = false ->
  endsWith P ".html" = false ->
  noLineTerminator P = true ->
  normalizePath (getBasePath env) (hd "" (split "?" u))
    = "/" ++ L ++ "/" ++ P ->
  createLanguageMiddleware env false {| url := Some u |} res =
  next {| url :=
            Some ((if existsSync env ["dist"; L; P ++ ".html"]
                   then "/" ++ L ++ "/" ++ P ++ ".html"
                   else "/" ++ P ++ ".html")
                    ++ querySuffix (nth_error (split "?" u) 1)) |} res.
Proof.
  intros Hu HL Hpage Hne Hsep Hhtml Hlt Hnorm.
  unfold createLanguageMiddleware. cbn [url]. rewrite Hu. cbn [negb].
  cbv zeta. rewrite Hnorm, (matchLang_sub L P HL Hlt).
  assert (E1 : (P =? "") = false) by now apply String.eqb_neq.
  rewrite E1, (no_sep_not_sep P Hsep). cbn [andb orb].
  rewrite (stripSuffix_absent "/" P (endsWith_no_sep "/" P Hsep)).
  rewrite (stripSuffix_absent ".html" P Hhtml).
  rewrite (split_none "/" P Hsep). cbn [hd].
  rewrite (proj2 (truthy_true P) Hne), Hpage. cbn [andb].
  unfold setUrl.
  destruct (existsSync env ["dist"; L; P ++ ".html"]);
    now rewrite ?append_assoc.
Qed.

(** A bare language code: lines 95-104. *)
Lemma bare_language_redirect (isDev : bool) (L u : string)
      (res : ServerResponse) :
  truthy u = true ->
  In L SUPPORTED_LANGUAGES ->
  normalizePath (getBasePath env) (hd "" (split "?" u)) = "/" ++ L ->
  createLanguageMiddleware env isDev {| url := Some u |} res =
  {| req_out := {| url := Some u |};
     res_out :=
       endResponse
         (setHeader "Location"
            ((if truthy (getBasePath env)
              then getBasePath env ++ "/" ++ L ++ "/"
              else "/" ++ L ++ "/")
               ++ querySuffix (nth_error (split "?" u) 1))
            (setStatus 302 res));
     next_called := false |}.
Proof.
  intros Hu HL Hnorm.
  unfold createLanguageMiddleware. cbn [url]. rewrite Hu. cbn [negb].
  cbv zeta. rewrite Hnorm, (matchLang_bare L HL).
  assert (E : endsWith ("/" ++ L) "/" = false)
    by (clear Hnorm; each_language HL; reflexivity).
  rewrite E. reflexivity.
Qed.

Lemma includes_first_piece (c d : ascii) (s : string) :
  includes (hd "" (split c s)) (String d "") = true ->
  includes s (String d "") = true.
Proof.
  induction s as [|a s IH]; [trivial |].
  cbn [split]. destruct (Ascii.eqb a c); [discriminate |].
  assert (Hhead : forall h,
             includes (String a h) (String d "") = true ->
             (includes h (String d "") = true ->
              includes s (String d "") = true) ->
             includes (String a s) (String d "") = true).
  { intros h Hh Hrec. cbn [includes String.prefix] in *.
    destruct (ascii_dec d a).
    - destruct s; reflexivity.
    - cbn [orb] in *. auto. }
  destruct (split c s) as [|h t]; cbn [hd] in *; intros H.
  - apply (Hhead "" H). discriminate.
  - apply (Hhead h H). exact IH.
Qed.

(** A language prefix followed by something with a dot that is no known
    page: nothing is assigned to [req.url] (lines 121-173). *)
Lemma lang_subpath_with_dot_untouched
      (isDev : bool) (req : IncomingMessage) (res : ServerResponse)
      (u lang rest : string) :
  url req = Some u ->
  matchLang (normalizePath (getBasePath env) (hd "" (split "?" u)))
    = Some (lang, rest) ->
  has (PAGES env)
      (hd "" (split "/" (stripSuffix ".html" (stripSuffix "/" rest))))
    = false ->
  includes (stripSuffix ".html" (stripSuffix "/" rest)) "." = true ->
  createLanguageMiddleware env isDev req res = next req res.
Proof.
  intros Hreq Hm Hpage Hdot.
  unfold createLanguageMiddleware. rewrite Hreq.
  destruct (negb (truthy u)); [reflexivity |].
  cbv zeta. rewrite Hm.
  destruct (String.eqb_spec rest "") as [->|_]; [discriminate |].
  destruct (String.eqb_spec rest "/") as [->|_]; [discriminate |].
  cbn [andb orb]. rewrite Hpage, Hdot, andb_false_r. reflexivity.
Qed.

End LanguageRouter.

Section RouterClaims.
Import ViteConfig.

Lemma split_attachQuery (p : string) (oq : option string) :
  includes p "?" = false -> plainQuery oq = true ->
  hd "" (split "?" (attachQuery p oq)) = p /\
  nth_error (split "?" (attachQuery p oq)) 1 = oq.
Proof.
  intros Hp Hq. destruct oq as [q|]; simpl in *.
  - apply negb_true_iff in Hq.
    rewrite (split_app "?" p q Hp), (split_none "?" q Hq). now split.
  - rewrite (split_none "?" p Hp). now split.
Qed.

Lemma attachQuery_truthy (p : string) (oq : option string) :
  p <> "" -> truthy (attachQuery p oq) = true.
Proof.
  intros Hp. apply truthy_true.
  destruct p; [contradiction |]. destruct oq; discriminate.
Qed.




(** C4.  For every configured language [L] and every remainder [r] of a
    request path (the path comes undecoded from the request line, so it
    holds no line terminator), the matcher applied to [/L/r] yields
    language [L] and remainder [r], and applied to [/L] yields [L] and the
    empty remainder; with [L = zh-TW] this says that the longer code is
    never cut down to [zh]. *)
Theorem language_matcher_exact (L r : string) :
  In L SUPPORTED_LANGUAGES ->
  noLineTerminator r = true ->
  matchLang ("/" ++ L ++ "/" ++ r) = Some (L, r) /\
  matchLang ("/" ++ L) = Some (L, "").
Proof.
  intros HL Hr. split; [now apply matchLang_sub | now apply matchLang_bare].
Qed.

Lemma language_matcher_exact_witness :
  matchLang ("/" ++ "zh-TW" ++ "/" ++ "merge-pdf")
    = Some ("zh-TW", "merge-pdf") /\
  matchLang ("/" ++ "zh-TW") = Some ("zh-TW", "").
Proof.
  apply (language_matcher_exact "zh-TW" "merge-pdf");
    [do 4 right; left; reflexivity | reflexivity].
Defined.

(** Why the condition on [r] is there: [.] does not match a line feed, so
    a string holding one, which no request path is, would not match. *)
Lemma raw_line_feed_not_matched :
  In "de" SUPPORTED_LANGUAGES /\
  matchLang ("/" ++ "de" ++ "/" ++ String "a" (String "010" "b")) = None /\
  matchLang ("/" ++ "de" ++ "/" ++ String "a" (String "010" "b"))
    <> Some ("de", String "a" (String "010" "b")).
Proof.
  split; [right; left; reflexivity |].
  split; [reflexivity | discriminate].
Qed.

(** The overlapping pair, spelled out. *)
Corollary zh_TW_not_truncated (r : string) :
  noLineTerminator r = true ->
  matchLang ("/zh-TW/" ++ r) = Some ("zh-TW", r) /\
  matchLang ("/zh/" ++ r) = Some ("zh", r).
Proof.
  intros Hr. split.
  - apply (matchLang_sub "zh-TW" r); [do 4 right; left; reflexivity | exact Hr].
  - apply (matchLang_sub "zh" r); [do 3 right; left; reflexivity | exact Hr].
Qed.

End RouterClaims.

Section RouterScenarios.
Import ViteConfig.

(** The scenarios of the routing table, run on the model. *)
Example redirect_fr :
  createLanguageMiddleware demoEnv false {| url := Some "/fr" |} freshResponse
  = {| req_out := {| url := Some "/fr" |};
       res_out := {| statusCode := 302;
                     headers := [("Location", "/fr/")];
                     ended := true |};
       next_called := false |}.
Proof. reflexivity. Qed.

Example index_fr_falls_back :
  createLanguageMiddleware demoEnv false {| url := Some "/fr/?x=1" |}
    freshResponse
  = next {| url := Some "/index.html?x=1" |} freshResponse.
Proof. reflexivity. Qed.

Example unknown_language_passes :
  createLanguageMiddleware demoEnv false {| url := Some "/xx/merge-pdf" |}
    freshResponse
  = next {| url := Some "/xx/merge-pdf" |} freshResponse.
Proof. reflexivity. Qed.

Example dev_serves_page_source :
  createLanguageMiddleware demoEnv true {| url := Some "/merge-pdf.html" |}
    freshResponse
  = next {| url := Some "/src/pages/merge-pdf.html" |} freshResponse.
Proof. reflexivity. Qed.

Lemma getBasePath_pdf (env : Env) :
  BASE_URL env = Some "/pdf/" -> getBasePath env = "/pdf".
Proof. unfold getBasePath. now intros ->. Qed.

(** What lines 77-150 do with the production request [/pdf/de/merge-pdf]
    under [BASE_URL = /pdf/]: it is normalized to [/de/merge-pdf], matched
    as language [de] with remainder [merge-pdf], and handed on with the url
    [/de/merge-pdf.html] or [/merge-pdf.html], neither of which has the
    base path the request came with. *)
Theorem base_path_scenario (env : Env) (res : ServerResponse) :
  BASE_URL env = Some "/pdf/" ->
  has (PAGES env) "merge-pdf" = true ->
  normalizePath (getBasePath env) "/pdf/de/merge-pdf" = "/de/merge-pdf" /\
  matchLang "/de/merge-pdf" = Some ("de", "merge-pdf") /\
  createLanguageMiddleware env false {| url := Some "/pdf/de/merge-pdf" |} res
  = next {| url :=
              Some (if existsSync env ["dist"; "de"; "merge-pdf.html"]
                    then "/de/merge-pdf.html" else "/merge-pdf.html") |}
      res.
Proof.
  intros Hbase Hpage.
  assert (Hnorm : normalizePath (getBasePath env) "/pdf/de/merge-pdf"
                  = "/de/merge-pdf")
    by now rewrite (getBasePath_pdf env Hbase).
  split; [exact Hnorm |]. split; [reflexivity |].
  rewrite (prod_known_page env "de" "merge-pdf" "/pdf/de/merge-pdf" res);
    try reflexivity; try assumption.
  - cbn. now destruct (existsSync env ["dist"; "de"; "merge-pdf.html"]).
  - right; left; reflexivity.
  - discriminate.
Qed.

Lemma base_path_scenario_witness :
  normalizePath (getBasePath pdfEnv) "/pdf/de/merge-pdf" = "/de/merge-pdf" /\
  matchLang "/de/merge-pdf" = Some ("de", "merge-pdf") /\
  createLanguageMiddleware pdfEnv false
    {| url := Some "/pdf/de/merge-pdf" |} freshResponse
  = next {| url := Some "/de/merge-pdf.html" |} freshResponse.
Proof.
  apply (base_path_scenario pdfEnv freshResponse); reflexivity.
Defined.

(** C5, at the production request [/pdf/de/merge-pdf] with
    [BASE_URL = /pdf/], [merge-pdf] a known page and its compiled German
    copy present: the url handed on is [/de/merge-pdf.html], not
    [/pdf/de/merge-pdf.html].  The rewrite drops the base path the request
    came with, while on the same server a request that is passed through
    keeps it and the redirect for a bare language code puts it back. *)
Theorem base_path_dropped_by_rewrite :
  BASE_URL pdfEnv = Some "/pdf/" /\
  has (PAGES pdfEnv) "merge-pdf" = true /\
  existsSync pdfEnv ["dist"; "de"; "merge-pdf.html"] = true /\
  createLanguageMiddleware pdfEnv false
    {| url := Some "/pdf/de/merge-pdf" |} freshResponse
  = next {| url := Some "/de/merge-pdf.html" |} freshResponse /\
  createLanguageMiddleware pdfEnv false
    {| url := Some "/pdf/de/merge-pdf" |} freshResponse
  <> next {| url := Some "/pdf/de/merge-pdf.html" |} freshResponse /\
  createLanguageMiddleware pdfEnv false
    {| url := Some "/pdf/de/logo.v2.png" |} freshResponse
  = next {| url := Some "/pdf/de/logo.v2.png" |} freshResponse /\
  createLanguageMiddleware pdfEnv false
    {| url := Some "/pdf/assets/app.js" |} freshResponse
  = next {| url := Some "/pdf/assets/app.js" |} freshResponse /\
  createLanguageMiddleware pdfEnv false {| url := Some "/pdf/de" |}
    freshResponse
  = {| req_out := {| url := Some "/pdf/de" |};
       res_out := {| statusCode := 302;
                     headers := [("Location", "/pdf/de/")];
                     ended := true |};
       next_called := false |}.
Proof. repeat split; try reflexivity. discriminate. Qed.

(** C2, at the request [/fr?a=1?b=2] with no base path: the answer is a
    302 that is not handed on, but its [Location] keeps only the part of
    the query string before the second question mark. *)
Theorem bare_language_redirect_query_cut (isDev : bool) :
  createLanguageMiddleware demoEnv isDev {| url := Some "/fr?a=1?b=2" |}
    freshResponse
  = {| req_out := {| url := Some "/fr?a=1?b=2" |};
       res_out := {| statusCode := 302;
                     headers := [("Location", "/fr/?a=1")];
                     ended := true |};
       next_called := false |}
  /\ "/fr/?a=1" <> "/fr/" ++ "?" ++ "a=1?b=2".
Proof. split; [now destruct isDev | discriminate]. Qed.

(** The redirect itself is as described whenever the query string holds
    no further question mark. *)
Lemma bare_language_redirect_plain
      (env : Env) (isDev : bool) (L p : string) (oq : option string)
      (res : ServerResponse) :
  In L SUPPORTED_LANGUAGES ->
  includes p "?" = false ->
  plainQuery oq = true ->
  normalizePath (getBasePath env) p = "/" ++ L ->
  createLanguageMiddleware env isDev {| url := Some (attachQuery p oq) |} res
  = {| req_out := {| url := Some (attachQuery p oq) |};
       res_out :=
         endResponse
           (setHeader "Location"
              ((if truthy (getBasePath env)
                then getBasePath env ++ "/" ++ L ++ "/"
                else "/" ++ L ++ "/") ++ querySuffix oq)
              (setStatus 302 res));
       next_called := false |}.
Proof.
  intros HL Hp Hq Hnorm.
  destruct (split_attachQuery p oq Hp Hq) as [Hhd Hnth].
  assert (Hpne : p <> "").
  { intros ->. rewrite normalizePath_empty in Hnorm.
    apply (language_nonempty L HL). destruct L; [reflexivity | discriminate]. }
  rewrite (bare_language_redirect env isDev L (attachQuery p oq) res
             (attachQuery_truthy p oq Hpne) HL);
    [now rewrite Hnth | now rewrite Hhd].
Qed.

(** C6.  A request whose normalized path has a first segment outside the
    configured list is treated exactly as lines 176-189 treat a path
    without language prefix: it is handed on, the response is untouched,
    and the url is either untouched or, on the dev server only, rewritten
    by the rule for [.html] paths outside [/src/] that name a known page
    whose source file exists. *)
Theorem unlisted_segment_unprefixed
    (env : Env) (isDev : bool) (u : string) (res : ServerResponse) :
  let pathname :=
    normalizePath (getBasePath env) (hd "" (split "?" u)) in
  let queryString := nth_error (split "?" u) 1 in
  let req := {| url := Some u |} in
  ~ In (firstSegment pathname) SUPPORTED_LANGUAGES ->
  let out := createLanguageMiddleware env isDev req res in
  out = unprefixedRoute env isDev pathname queryString req res /\
  next_called out = true /\
  res_out out = res /\
  (req_out out = req \/
   (isDev = true /\
    endsWith pathname ".html" = true /\
    startsWith pathname "/src/" = false /\
    let page := replace ".html" "" (slice 1 pathname) in
    has (PAGES env) page = true /\
    existsSync env ["src/pages"; page ++ ".html"] = true /\
    req_out out =
      {| url := Some ("/src/pages/" ++ page ++ ".html"
                        ++ querySuffix queryString) |})).
Proof.
  intros pathname queryString req Hseg out.
  assert (Hout : out = unprefixedRoute env isDev pathname queryString req res).
  { subst out. unfold createLanguageMiddleware. cbn [url req].
    destruct (truthy u) eqn:Hu; cbn [negb].
    - cbv zeta. fold pathname queryString.
      destruct (matchLang pathname) as [m|] eqn:Hm; [|reflexivity].
      exfalso. apply Hseg. now apply matchLang_firstSegment with m.
    - apply negb_false_iff, String.eqb_eq in Hu.
      subst pathname. subst u. cbn [split hd].
      rewrite normalizePath_empty. unfold unprefixedRoute.
      now rewrite andb_false_r. }
  split; [exact Hout |]. rewrite Hout. unfold unprefixedRoute.
  destruct isDev; cbn [andb]; [|now auto].
  destruct (endsWith pathname ".html") eqn:He; cbn [andb]; [|now auto].
  destruct (startsWith pathname "/src/") eqn:Hs; cbn [negb]; [now auto |].
  cbv zeta.
  destruct (has (PAGES env) (replace ".html" "" (slice 1 pathname))) eqn:Hp;
    cbn [andb]; [|now auto].
  destruct (existsSync env
              ["src/pages"; replace ".html" "" (slice 1 pathname) ++ ".html"])
    eqn:Hx; [|now auto].
  cbn. repeat split; try reflexivity. right. repeat split; assumption.
Qed.

Lemma unlisted_segment_unprefixed_witness :
  let pathname :=
    normalizePath (getBasePath demoEnv) (hd "" (split "?" "/xx/merge-pdf")) in
  let queryString := nth_error (split "?" "/xx/merge-pdf") 1 in
  let req := {| url := Some "/xx/merge-pdf" |} in
  let out := createLanguageMiddleware demoEnv true req freshResponse in
  out = unprefixedRoute demoEnv true pathname queryString req freshResponse /\
  next_called out = true /\
  res_out out = freshResponse /\
  (req_out out = req \/
   (true = true /\
    endsWith pathname ".html" = true /\
    startsWith pathname "/src/" = false /\
    let page := replace ".html" "" (slice 1 pathname) in
    has (PAGES demoEnv) page = true /\
    existsSync demoEnv ["src/pages"; page ++ ".html"] = true /\
    req_out out =
      {| url := Some ("/src/pages/" ++ page ++ ".html"
                        ++ querySuffix queryString) |})).
Proof.
  apply (unlisted_segment_unprefixed demoEnv true "/xx/merge-pdf"
           freshResponse).
  cbv. intros H.
  repeat (destruct H as [H|H]; [discriminate H |]). exact H.
Defined.

(** C8.  When the normalized path matches a language prefix and the first
    segment of the cleaned sub-path is no known page and holds a dot, the
    request is handed on as it came: [req.url] is not assigned and the
    response is not touched. *)
Theorem dotted_unknown_segment_untouched
    (env : Env) (isDev : bool) (req : IncomingMessage)
    (res : ServerResponse) (u lang rest : string) :
  url req = Some u ->
  matchLang (normalizePath (getBasePath env) (hd "" (split "?" u)))
    = Some (lang, rest) ->
  let cleanPath := stripSuffix ".html" (stripSuffix "/" rest) in
  let pageName := hd "" (split "/" cleanPath) in
  has (PAGES env) pageName = false ->
  includes pageName "." = true ->
  createLanguageMiddleware env isDev req res = next req res.
Proof.
  intros Hreq Hm cleanPath pageName Hpage Hdot.
  apply (lang_subpath_with_dot_untouched env isDev req res u lang rest);
    try assumption.
  now apply (includes_first_piece "/" ".").
Qed.

Lemma dotted_unknown_segment_untouched_witness :
  createLanguageMiddleware demoEnv false
    {| url := Some "/de/logo.v2.png?x=1" |} freshResponse
  = next {| url := Some "/de/logo.v2.png?x=1" |} freshResponse.
Proof.
  apply (dotted_unknown_segment_untouched demoEnv false
           {| url := Some "/de/logo.v2.png?x=1" |} freshResponse
           "/de/logo.v2.png?x=1" "de" "logo.v2.png");
    reflexivity.
Defined.

End RouterScenarios.

(* ----------------------------------------------------------------- *)
(** ** The browser side *)

Section BrowserClaims.
Import I18n.

Lemma arrIncludes_In (arr : list string) (x : string) :
  arrIncludes arr x = true <-> In x arr.
Proof.
  unfold arrIncludes. rewrite existsb_exists. split.
  - intros (y & Hy & E). apply String.eqb_eq in E. now subst.
  - intros H. exists x. split; [exact H | apply String.eqb_refl].
Qed.

(** C9.  [changeLanguage] with a code outside [supportedLanguages] does
    nothing at all: the page state is returned as it was, so the stored
    language is not written and no URL is assigned to the location. *)
Theorem changeLanguage_unsupported_noop (lang : string) (b : Browser) :
  ~ In lang supportedLanguages ->
  changeLanguage lang b = b /\
  localStorage (changeLanguage lang b) "i18nextLng"
    = localStorage b "i18nextLng" /\
  assignedHref (changeLanguage lang b) = assignedHref b.
Proof.
  intros H. assert (E : changeLanguage lang b = b).
  { unfold changeLanguage.
    destruct (arrIncludes supportedLanguages lang) eqn:Hin; [|reflexivity].
    exfalso. apply H. now apply arrIncludes_In. }
  now rewrite E.
Qed.

Lemma changeLanguage_unsupported_noop_witness :
  changeLanguage "xx" (visitorAt "/de/tools.html") = visitorAt "/de/tools.html"
  /\ localStorage (changeLanguage "xx" (visitorAt "/de/tools.html"))
       "i18nextLng"
     = localStorage (visitorAt "/de/tools.html") "i18nextLng"
  /\ assignedHref (changeLanguage "xx" (visitorAt "/de/tools.html"))
     = assignedHref (visitorAt "/de/tools.html").
Proof.
  apply (changeLanguage_unsupported_noop "xx" (visitorAt "/de/tools.html")).
  cbv. intros H.
  repeat (destruct H as [H|H]; [discriminate H |]). exact H.
Defined.

(** For contrast: a supported code is stored and a URL is assigned. *)
Lemma changeLanguage_supported_acts (lang : string) (b : Browser) :
  In lang supportedLanguages ->
  localStorage (changeLanguage lang b) "i18nextLng" = Some lang /\
  assignedHref (changeLanguage lang b) <> None.
Proof.
  intros H. apply arrIncludes_In in H. unfold changeLanguage.
  rewrite H. cbn. split; [reflexivity | discriminate].
Qed.

(** C3, at the relative href [about.html] on a German page: the first
    pass gives [de/about.html], which the guard for already prefixed
    hrefs does not recognize (it asks for a leading slash), so a second
    pass prefixes it again. *)
Theorem relative_href_prefixed_twice :
  rewriteLinks (visitorAt "/de/tools.html") [Some "about.html"]
    = [Some "de/about.html"] /\
  rewriteLinks (visitorAt "/de/tools.html")
    (rewriteLinks (visitorAt "/de/tools.html") [Some "about.html"])
    = [Some "de/de/about.html"] /\
  rewriteLinks (visitorAt "/de/tools.html")
    (rewriteLinks (visitorAt "/de/tools.html") [Some "about.html"])
    <> rewriteLinks (visitorAt "/de/tools.html") [Some "about.html"].
Proof. repeat split; try reflexivity. discriminate. Qed.

(** Every guard of the loop body leaves the href as it is. *)
Lemma rewriteHref_prefixed (basePath lang href : string) :
  test (langPrefixRegex basePath) href = true ->
  rewriteHref basePath lang href = href.
Proof.
  intros H. unfold rewriteHref. rewrite H.
  now repeat match goal with
        | |- (if ?c then _ else _) = _ => destruct c
        end.
Qed.

Lemma rooted_rewrite_is_prefixed (lang h : string) :
  In lang supportedLanguages ->
  test (langPrefixRegex "")
    (collapseAfterNonColon false ("/" ++ lang ++ String "/" h)) = true.
Proof.
  intros HL. unfold supportedLanguages in HL. simpl in HL.
  repeat (destruct HL as [<-|HL]); try contradiction;
    destruct h; reflexivity.
Qed.

Lemma rewriteHref_cases (basePath lang href : string) :
  rewriteHref basePath lang href = href \/
  rewriteHref basePath lang href
    = collapseAfterNonColon false (newHrefFor basePath lang href).
Proof.
  unfold rewriteHref.
  repeat match goal with
    | |- (if ?c then _ else _) = _ \/ _ => destruct c; [now left |]
    end.
  now right.
Qed.

(** Hrefs that start at the site root are stable under a second pass
    (no base path). *)
Lemma rewriteHref_rooted_idempotent (lang href : string) :
  In lang supportedLanguages ->
  startsWith href "/" = true ->
  rewriteHref "" lang (rewriteHref "" lang href) = rewriteHref "" lang href.
Proof.
  intros HL Hroot.
  destruct (rewriteHref_cases "" lang href) as [E|E]; rewrite E;
    [exact E |].
  apply rewriteHref_prefixed.
  unfold newHrefFor. rewrite Hroot. cbn [truthy String.eqb negb andb].
  destruct href as [|c h]; [discriminate |].
  assert (c = "/"%char) as ->.
  { unfold startsWith in Hroot. cbn [String.prefix] in Hroot.
    destruct (ascii_dec "/" c) as [E'|E']; [now rewrite E' | discriminate]. }
  now apply rooted_rewrite_is_prefixed.
Qed.

End BrowserClaims.

Section WhitelistClaims.
Import ViteConfig I18n.

(** C7, at the segment [ru]: the browser's list and patterns know it, the
    server's list and [LANG_REGEX] do not, so [/ru/merge-pdf] counts as
    language-prefixed in the browser and is handed on untouched by the
    server. *)
Theorem ru_known_to_browser_only :
  In "ru" supportedLanguages /\
  ~ In "ru" SUPPORTED_LANGUAGES /\
  getLanguageFromUrl (visitorAt "/ru/merge-pdf") = "ru" /\
  test (langPrefixRegex "") "/ru/merge-pdf" = true /\
  matchLang "/ru/merge-pdf" = None /\
  createLanguageMiddleware demoEnv false {| url := Some "/ru/merge-pdf" |}
    freshResponse
  = next {| url := Some "/ru/merge-pdf" |} freshResponse.
Proof.
  split; [do 4 right; left; reflexivity |].
  split; [|repeat split; reflexivity].
  cbv. intros H.
  repeat (destruct H as [H|H]; [discriminate H |]). exact H.
Qed.

(** Apart from [ru] the two lists hold the same codes. *)
Lemma whitelists_agree_except_ru (s : string) :
  s <> "ru" -> (In s supportedLanguages <-> In s SUPPORTED_LANGUAGES).
Proof.
  intros Hru. assert (Hru' : "ru" = s -> False) by (intros E; now subst).
  unfold supportedLanguages, SUPPORTED_LANGUAGES. simpl. tauto.
Qed.

End WhitelistClaims.

(* ----------------------------------------------------------------- *)
(** ** The file list of the PDF-to-FB2 page *)

Section FileListClaims.
Import PdfToFb2.

Lemma lowerChar_dot (c : ascii) : lowerChar c = "."%char -> c = "."%char.
Proof.
  destruct c as [[] [] [] [] [] [] [] []]; vm_compute; intros H;
    first [discriminate H | reflexivity].
Qed.

Lemma lowerChar_p (c : ascii) :
  lowerChar c = "p"%char <-> (c = "p" \/ c = "P")%char.
Proof.
  split.
  - destruct c as [[] [] [] [] [] [] [] []]; vm_compute; intros H;
      first [discriminate H | now left | now right].
  - now intros [->| ->].
Qed.

Lemma lowerChar_d (c : ascii) :
  lowerChar c = "d"%char <-> (c = "d" \/ c = "D")%char.
Proof.
  split.
  - destruct c as [[] [] [] [] [] [] [] []]; vm_compute; intros H;
      first [discriminate H | now left | now right].
  - now intros [->| ->].
Qed.

Lemma lowerChar_f (c : ascii) :
  lowerChar c = "f"%char <-> (c = "f" \/ c = "F")%char.
Proof.
  split.
  - destruct c as [[] [] [] [] [] [] [] []]; vm_compute; intros H;
      first [discriminate H | now left | now right].
  - now intros [->| ->].
Qed.

(** [name.toLowerCase().endsWith('.pdf')] says that the name ends in
    [.pdf] whatever the case of the three letters. *)
Lemma lowercase_suffix_pdfName (n : string) :
  endsWith (toLowerCase n) ".pdf" = true <-> pdfName n.
Proof.
  split.
  - induction n as [|c n IH]; [discriminate |].
    cbn [toLowerCase endsWith]. intros H.
    apply orb_prop in H as [H|H].
    + apply String.eqb_eq in H. injection H as Hc Hrest.
      destruct n as [|c1 [|c2 [|c3 [|c4 n4]]]]; try discriminate.
      injection Hrest as H1 H2 H3.
      apply lowerChar_dot in Hc. subst c.
      exists "", c1, c2, c3. split; [reflexivity |].
      now rewrite <- lowerChar_p, <- lowerChar_d, <- lowerChar_f.
    + destruct (IH H) as (stem & e1 & e2 & e3 & -> & He).
      exists (String c stem), e1, e2, e3. split; [reflexivity | exact He].
  - intros (stem & e1 & e2 & e3 & -> & H1 & H2 & H3).
    apply lowerChar_p in H1. apply lowerChar_d in H2.
    apply lowerChar_f in H3.
    induction stem as [|c stem IH].
    + cbn [append toLowerCase endsWith]. rewrite H1, H2, H3. reflexivity.
    + cbn [append toLowerCase endsWith]. rewrite IH. apply orb_true_r.
Qed.

Lemma isPdf_spec (f : File) :
  isPdf f = true <-> type f = "application/pdf" \/ pdfName (name f).
Proof.
  unfold isPdf. rewrite orb_true_iff, String.eqb_eq.
  now rewrite lowercase_suffix_pdfName.
Qed.

Lemma filter_isPdf_length (l : list File) :
  List.length (filter isPdf l) <= List.length l.
Proof.
  induction l as [|x l IH]; simpl; [lia |].
  destruct (isPdf x); simpl; lia.
Qed.

(** Some file was dropped by the filter exactly when one is no PDF. *)
Lemma skipped_iff (l : list File) :
  Nat.ltb (List.length (filter isPdf l)) (List.length l)
  = existsb (fun f => negb (isPdf f)) l.
Proof.
  induction l as [|x l IH]; [reflexivity |].
  pose proof (filter_isPdf_length l) as Hle.
  simpl. destruct (isPdf x); simpl.
  - exact IH.
  - apply Nat.ltb_lt. lia.
Qed.

Lemma handleFiles_files (newFiles : list File) (p : Page) :
  files (handleFiles newFiles p) = (files p ++ filter isPdf newFiles)%list.
Proof.
  unfold handleFiles.
  destruct (Nat.ltb (List.length (filter isPdf newFiles))
              (List.length newFiles));
    destruct (filter isPdf newFiles) as [|v vs]; simpl;
    now rewrite ?app_nil_r.
Qed.

Lemma handleFiles_alerts (newFiles : list File) (p : Page) :
  alerts (handleFiles newFiles p)
  = if existsb (fun f => negb (isPdf f)) newFiles
    then skippedAlert :: alerts p else alerts p.
Proof.
  unfold handleFiles. rewrite skipped_iff.
  destruct (existsb (fun f => negb (isPdf f)) newFiles);
    destruct (filter isPdf newFiles); reflexivity.
Qed.

Lemma removeAt_allPdf (i : nat) (l : list File) :
  allPdf l -> allPdf (removeAt i l).
Proof.
  unfold allPdf. revert i.
  induction l as [|x l IH]; intros i H; [destruct i; constructor |].
  inversion H; subst. destruct i; simpl; [assumption |].
  constructor; [assumption | now apply IH].
Qed.

Lemma handleFiles_allPdf (newFiles : list File) (p : Page) :
  allPdf (files p) -> allPdf (files (handleFiles newFiles p)).
Proof.
  intros H. rewrite handleFiles_files. unfold allPdf.
  apply Forall_app. split; [exact H |].
  apply Forall_forall. intros f Hf. now apply filter_In in Hf.
Qed.

Lemma step_allPdf (e : Event) (p : Page) :
  allPdf (files p) -> allPdf (files (step e p)).
Proof.
  intros H.
  destruct e as [[fl|]|[fl|]| |i|]; simpl; try assumption;
    try (now constructor);
    try (destruct (Nat.ltb 0 (List.length fl));
         [now apply handleFiles_allPdf | assumption]).
  now apply removeAt_allPdf.
Qed.

Lemma runEvents_allPdf (es : list Event) :
  forall p, allPdf (files p) -> allPdf (files (runEvents es p)).
Proof.
  unfold runEvents.
  induction es as [|e es IH]; intros p H; simpl; [exact H |].
  apply IH. now apply step_allPdf.
Qed.

(** C10.  [handleFiles] is append-only and lets PDF files in only: the new
    list is the old one followed by the incoming files that have MIME
    type [application/pdf] or a name ending in [.pdf] in any case; an
    alert is shown exactly when some incoming file was skipped; and
    whatever happens on the page, the list holds PDF files only. *)
Theorem handleFiles_append_only (newFiles : list File) (p : Page) :
  files (handleFiles newFiles p) = (files p ++ filter isPdf newFiles)%list /\
  (forall f, isPdf f = true <->
             type f = "application/pdf" \/ pdfName (name f)) /\
  (forall f, In f (files (handleFiles newFiles p)) <->
             In f (files p) \/ (In f newFiles /\ isPdf f = true)) /\
  alerts (handleFiles newFiles p)
    = (if existsb (fun f => negb (isPdf f)) newFiles
       then skippedAlert :: alerts p else alerts p) /\
  (forall es, allPdf (files (runEvents es initialPage))).
Proof.
  split; [apply handleFiles_files |].
  split; [apply isPdf_spec |].
  split.
  - intros f. rewrite handleFiles_files, in_app_iff, filter_In. tauto.
  - split; [apply handleFiles_alerts |].
    intros es. apply runEvents_allPdf. constructor.
Qed.

End FileListClaims.

(* ================================================================= *)
(** * Further properties of the same code *)

(** Case analysis over the languages of the browser's list. *)
Ltac each_client_language H :=
  unfold I18n.supportedLanguages in H; simpl in H;
  repeat (destruct H as [<-|H]); try contradiction.

(* ----------------------------------------------------------------- *)
(** ** More on the language matcher *)

Section MatcherCharacterization.
Import ViteConfig.

(** A star that runs to the end of the input has only read characters of
    its class. *)
Lemma star_dot_to_end (s s' : string) :
  matches (Star CDot) s s' -> s' = "" -> noLineTerminator s = true.
Proof.
  intros H. remember (Star CDot) as r eqn:Er.
  induction H; try discriminate; injection Er as ->; intros E.
  - now subst.
  - simpl in *. match goal with
    | Hc : negb _ = true |- _ => rewrite Hc
    end. simpl. now apply IHmatches.
Qed.

Lemma prefix_pattern_remainder (alts : regex) (p : string) (cs : captures) :
  exec (Cat Bos
          (Cat (Atom (CChr "/"))
             (Cat (Group 1 alts)
                (Cat (Opt (Cat (Atom (CChr "/")) (Group 2 (Star CDot))))
                   Eos)))) p = Some cs ->
  exists s1 tail,
    p = String "/" s1 /\ matches alts s1 tail /\
    (tail = "" \/
     exists t, tail = String "/" t /\ noLineTerminator t = true).
Proof.
  rewrite exec_anchored. intros H.
  apply run_sound in H as (pos & s' & cs' & Hm & _).
  invert_matches;
    repeat match goal with
      | E : inCls (CChr _) _ = true |- _ =>
          simpl in E; apply Ascii.eqb_eq in E; subst
      end;
    do 2 eexists; (split; [reflexivity |]); (split; [eassumption |]).
  - now left.
  - right. eexists. split; [reflexivity |].
    eapply star_dot_to_end; [eassumption | reflexivity].
Qed.

(** X1.  What [pathname.match(LANG_REGEX)] yields, completely: language [l]
    and remainder [r] come out exactly when [l] is in the configured list
    and the path is [/l] (then [r] is empty) or [/l/r] with [r] free of
    line terminators. *)
Theorem matchLang_characterization (p l r : string) :
  matchLang p = Some (l, r) <->
  In l SUPPORTED_LANGUAGES /\
  ((p = "/" ++ l /\ r = "") \/
   (p = "/" ++ l ++ "/" ++ r /\ noLineTerminator r = true)).
Proof.
  split.
  - intros H. assert (H' := H). unfold matchLang in H'.
    destruct (exec LANG_REGEX p) as [cs|] eqn:E; [|discriminate]. clear H'.
    apply prefix_pattern_remainder in E as (s1 & tail & -> & Hm & Ht).
    apply matches_altOf in Hm as (L & HL & ->); [|discriminate].
    destruct Ht as [->|(t & -> & Hlt)].
    + rewrite append_empty_r in H.
      change (String "/" L) with ("/" ++ L) in H.
      rewrite (matchLang_bare L HL) in H. injection H as <- <-.
      split; [exact HL |]. left. now rewrite append_empty_r.
    + change (String "/" (L ++ String "/" t)) with ("/" ++ L ++ "/" ++ t) in H.
      rewrite (matchLang_sub L t HL Hlt) in H. injection H as <- <-.
      split; [exact HL |]. now right.
  - intros (HL & [(-> & ->)|(-> & Hlt)]).
    + now apply matchLang_bare.
    + now apply matchLang_sub.
Qed.

End MatcherCharacterization.

Section RouterOutcomes.
Import ViteConfig RouterOutcome.


Lemma endsWith_language_slash (L : string) :
  In L SUPPORTED_LANGUAGES -> endsWith ("/" ++ L ++ "/" ++ "") "/" = true.
Proof. intros HL. each_language HL; reflexivity. Qed.

(** X2.  A call of the middleware ends in one of three ways: the request
    is handed on as it came; it is handed on with [req.url] set to a
    root-relative [.html] path followed by the query suffix, the response
    untouched; or a 302 with a [Location] below the base path is sent and
    [next()] is not called, which happens only when the normalized path is
    a bare configured language code. *)
Theorem middleware_outcomes
    (env : Env) (isDev : bool) (req : IncomingMessage) (res : ServerResponse) :
  let out := createLanguageMiddleware env isDev req res in
  out = next req res \/
  (exists u path,
      url req = Some u /\
      out = next {| url := Some ("/" ++ path ++ ".html"
                                   ++ querySuffix (nth_error (split "?" u) 1)) |}
              res) \/
  (exists u L,
      url req = Some u /\
      In L SUPPORTED_LANGUAGES /\
      normalizePath (getBasePath env) (hd "" (split "?" u)) = "/" ++ L /\
      out = redirectTo
              ((if truthy (getBasePath env)
                then getBasePath env ++ "/" ++ L ++ "/"
                else "/" ++ L ++ "/")
                 ++ querySuffix (nth_error (split "?" u) 1)) req res).
Proof.
  intros out. subst out. unfold createLanguageMiddleware.
  destruct req as [[u|]]; cbn [url]; [|now left].
  destruct (negb (truthy u)); [now left |]. cbv zeta.
  set (q := querySuffix (nth_error (split "?" u) 1)).
  set (p := normalizePath (getBasePath env) (hd "" (split "?" u))).
  assert (Hrew : forall path,
             next (setUrl ("/" ++ path ++ ".html" ++ q) {| url := Some u |}) res
             = next {| url := Some ("/" ++ path ++ ".html" ++ q) |} res)
    by reflexivity.
  destruct (matchLang p) as [[lang rest]|] eqn:Hm.
  - apply matchLang_characterization in Hm as (HL & Hshape).
    destruct ((rest =? "") && negb (endsWith p "/")) eqn:Hbare.
    + right. right. exists u, lang.
      apply andb_true_iff in Hbare as [Hr Hend].
      apply String.eqb_eq in Hr. apply negb_true_iff in Hend.
      split; [reflexivity |]. split; [exact HL |]. split; [|reflexivity].
      destruct Hshape as [(Hp & _)|(Hp & _)]; [exact Hp |].
      subst rest. rewrite Hp, (endsWith_language_slash lang HL) in Hend.
      discriminate.
    + destruct ((rest =? "") || (rest =? "/")).
      * right. left. exists u.
        destruct isDev; [now exists "index" |].
        destruct (existsSync env ["dist"; lang; "index.html"]);
          [|now exists "index"].
        exists (lang ++ "/index"). split; [reflexivity |].
        rewrite <- Hrew. now rewrite append_assoc.
      * set (cleanPath := stripSuffix ".html" (stripSuffix "/" rest)).
        set (pageName := hd "" (split "/" cleanPath)).
        destruct (truthy pageName && has (PAGES env) pageName).
        { right. left. exists u. destruct isDev.
          - destruct (existsSync env ["src/pages"; pageName ++ ".html"]);
              [now exists ("src/pages/" ++ pageName) | now exists pageName].
          - destruct (existsSync env ["dist"; lang; pageName ++ ".html"]);
              [|now exists pageName].
            exists (lang ++ "/" ++ pageName). split; [reflexivity |].
            rewrite <- Hrew. now rewrite !append_assoc. }
        destruct (negb (includes cleanPath ".")); [|now left].
        right. left. exists u. destruct isDev; [now exists cleanPath |].
        destruct (existsSync env ["dist"; lang; cleanPath ++ ".html"]);
          [|now exists cleanPath].
        exists (lang ++ "/" ++ cleanPath). split; [reflexivity |].
        rewrite <- Hrew. now rewrite !append_assoc.
  - unfold unprefixedRoute.
    destruct (isDev && endsWith p ".html" && negb (startsWith p "/src/"));
      [|now left].
    cbv zeta. set (pageName := replace ".html" "" (slice 1 p)).
    destruct (has (PAGES env) pageName
              && existsSync env ["src/pages"; pageName ++ ".html"]);
      [|now left].
    right. left. now exists u, ("src/pages/" ++ pageName).
Qed.

End RouterOutcomes.

Section RouterBranches.
Import ViteConfig.

Variable env : Env.

Lemma normalized_language_path_truthy (u L t : string) :
  In L SUPPORTED_LANGUAGES ->
  normalizePath (getBasePath env) (hd "" (split "?" u)) = "/" ++ L ++ t ->
  truthy u = true.
Proof.
  intros HL Hnorm. apply truthy_true. intros ->.
  cbn [split hd] in Hnorm. rewrite normalizePath_empty in Hnorm.
  apply (language_nonempty L HL). destruct L; [reflexivity | discriminate].
Qed.

(** X3.  A request whose path normalizes to [/L/] is served the index page:
    [/index.html] on the dev server; in production [/L/index.html] when
    [dist/L/index.html] exists and [/index.html] otherwise. *)
Theorem language_index_resolution
    (isDev : bool) (L u : string) (res : ServerResponse) :
  In L SUPPORTED_LANGUAGES ->
  normalizePath (getBasePath env) (hd "" (split "?" u)) = "/" ++ L ++ "/" ->
  createLanguageMiddleware env isDev {| url := Some u |} res =
  next {| url :=
            Some ((if isDev then "/index.html"
                   else if existsSync env ["dist"; L; "index.html"]
                        then "/" ++ L ++ "/index.html"
                        else "/index.html")
                    ++ querySuffix (nth_error (split "?" u) 1)) |} res.
Proof.
  intros HL Hnorm.
  pose proof (normalized_language_path_truthy u L "/" HL Hnorm) as Hu.
  unfold createLanguageMiddleware. cbn [url]. rewrite Hu. cbn [negb].
  cbv zeta. rewrite Hnorm.
  change ("/" ++ L ++ "/") with ("/" ++ L ++ "/" ++ "").
  rewrite (matchLang_sub L "" HL eq_refl), (endsWith_language_slash L HL).
  cbn [String.eqb negb andb orb]. unfold setUrl.
  destruct isDev; [reflexivity |].
  destruct (existsSync env ["dist"; L; "index.html"]); [|reflexivity].
  now rewrite !append_assoc.
Qed.


(** X4.  Dev server, known page [P] below a language prefix: the url
    becomes the page source [/src/pages/P.html] when that file exists and
    [/P.html] otherwise. *)
Theorem dev_known_page
    (L P u : string) (res : ServerResponse) :
  In L SUPPORTED_LANGUAGES ->
  has (PAGES env) P = true ->
  P <> "" ->
  includes P "/" = false ->
  endsWith P ".html" = false ->
  noLineTerminator P = true ->
  normalizePath (getBasePath env) (hd "" (split "?" u))
    = "/" ++ L ++ "/" ++ P ->
  createLanguageMiddleware env true {| url := Some u |} res =
  next {| url :=
            Some ((if existsSync env ["src/pages"; P ++ ".html"]
                   then "/src/pages/" ++ P ++ ".html"
                   else "/" ++ P ++ ".html")
                    ++ querySuffix (nth_error (split "?" u) 1)) |} res.
Proof.
  intros HL Hpage Hne Hsep Hhtml Hlt Hnorm.
  pose proof (normalized_language_path_truthy u L _ HL Hnorm) as Hu.
  unfold createLanguageMiddleware. cbn [url]. rewrite Hu. cbn [negb].
  cbv zeta. rewrite Hnorm, (matchLang_sub L P HL Hlt).
  assert (E1 : (P =? "") = false) by now apply String.eqb_neq.
  rewrite E1, (no_sep_not_sep P Hsep). cbn [andb orb].
  rewrite (stripSuffix_absent "/" P (endsWith_no_sep "/" P Hsep)).
  rewrite (stripSuffix_absent ".html" P Hhtml).
  rewrite (split_none "/" P Hsep). cbn [hd].
  rewrite (proj2 (truthy_true P) Hne), Hpage. cbn [andb].
  unfold setUrl.
  destruct (existsSync env ["src/pages"; P ++ ".html"]);
    now rewrite ?append_assoc.
Qed.


Lemma no_dot_no_html (r : string) :
  includes r "." = false -> endsWith r ".html" = false.
Proof.
  induction r as [|c r IH]; [reflexivity |].
  intros H. apply includes_cons_false in H as [Hne Hr].
  cbn [endsWith]. rewrite (IH Hr), orb_false_r.
  apply String.eqb_neq. intros E. injection E as E _. now apply Hne.
Qed.

(** X5.  A sub-path [r] that does not start with a slash, has no dot and
    whose first segment is no known page is taken as a page name as a
    whole: [/L/r] becomes [/r.html] on the dev server; in production
    [/L/r.html] when [dist/L/r.html] exists and [/r.html] otherwise. *)
Theorem implicit_page_resolution
    (isDev : bool) (L r u : string) (res : ServerResponse) :
  In L SUPPORTED_LANGUAGES ->
  r <> "" ->
  startsWith r "/" = false ->
  noLineTerminator r = true ->
  includes r "." = false ->
  endsWith r "/" = false ->
  has (PAGES env) (hd "" (split "/" r)) = false ->
  normalizePath (getBasePath env) (hd "" (split "?" u))
    = "/" ++ L ++ "/" ++ r ->
  createLanguageMiddleware env isDev {| url := Some u |} res =
  next {| url :=
            Some ((if isDev then "/" ++ r ++ ".html"
                   else if existsSync env ["dist"; L; r ++ ".html"]
                        then "/" ++ L ++ "/" ++ r ++ ".html"
                        else "/" ++ r ++ ".html")
                    ++ querySuffix (nth_error (split "?" u) 1)) |} res.
Proof.
  intros HL Hne Hrel Hlt Hdot Hslash Hpage Hnorm.
  pose proof (normalized_language_path_truthy u L _ HL Hnorm) as Hu.
  unfold createLanguageMiddleware. cbn [url]. rewrite Hu. cbn [negb].
  cbv zeta. rewrite Hnorm, (matchLang_sub L r HL Hlt).
  assert (E1 : (r =? "") = false) by now apply String.eqb_neq.
  assert (E2 : (r =? "/") = false)
    by (apply String.eqb_neq; intros ->; discriminate).
  rewrite E1, E2. cbn [andb orb].
  rewrite (stripSuffix_absent "/" r Hslash).
  rewrite (stripSuffix_absent ".html" r (no_dot_no_html r Hdot)).
  rewrite Hpage, andb_false_r, Hdot. cbn [negb]. unfold setUrl.
  destruct isDev; [now rewrite ?append_assoc |].
  destruct (existsSync env ["dist"; L; r ++ ".html"]);
    now rewrite ?append_assoc.
Qed.


Lemma startsWith_append (b x : string) : startsWith (b ++ x) b = true.
Proof.
  unfold startsWith. induction b as [|c b IH]; simpl.
  - now destruct x.
  - rewrite IH. destruct (ascii_dec c c); [reflexivity | contradiction].
Qed.

Lemma slice_append (b x : string) : slice (String.length b) (b ++ x) = x.
Proof. induction b as [|c b IH]; [now destruct x | exact IH]. Qed.

(** X6.  Prefixing a site-relative path with the base path and normalizing
    gives the path back, for every base path other than [/]. *)
Theorem normalizePath_strips_base (b r : string) :
  b <> "/" ->
  startsWith r "/" = true ->
  normalizePath b (b ++ r) = r.
Proof.
  intros Hb Hr. unfold normalizePath.
  apply String.eqb_neq in Hb. rewrite Hb. cbn [negb]. rewrite andb_true_r.
  destruct (truthy b) eqn:Ht; cbn [andb].
  - rewrite startsWith_append, slice_append. unfold or_else.
    destruct r as [|c r]; [discriminate |]. cbn [truthy String.eqb negb].
    now rewrite Hr.
  - apply negb_false_iff, String.eqb_eq in Ht. subst b.
    cbn [append]. now rewrite Hr.
Qed.


Lemma split_query_suffix (p : string) (oq : option string) :
  includes p "?" = false -> plainQuery oq = true ->
  hd "" (split "?" (p ++ querySuffix oq)) = p /\
  querySuffix (nth_error (split "?" (p ++ querySuffix oq)) 1)
    = querySuffix oq.
Proof.
  intros Hp Hq. destruct oq as [q|]; cbn [querySuffix].
  - destruct (truthy q) eqn:Ht.
    + simpl in Hq. apply negb_true_iff in Hq.
      change (p ++ "?" ++ q) with (p ++ String "?" q).
      rewrite (split_app "?" p q Hp), (split_none "?" q Hq). cbn.
      now rewrite Ht.
    + rewrite append_empty_r, (split_none "?" p Hp). now split.
  - rewrite append_empty_r, (split_none "?" p Hp). now split.
Qed.

Lemma includes_append_false (a b : string) (c : ascii) :
  includes a (String c "") = false -> includes b (String c "") = false ->
  includes (a ++ b) (String c "") = false.
Proof.
  intros Ha Hb. induction a as [|x a IH]; [exact Hb |].
  apply includes_cons_false in Ha as [Hne Ha].
  cbn [append includes String.prefix].
  rewrite (IH Ha), orb_false_r.
  destruct (ascii_dec c x) as [->|_]; [contradiction | reflexivity].
Qed.

(** X7.  The redirect does not loop: a request for the [Location] that the
    middleware sends for a bare language code is served the index page of
    that language. *)
Theorem redirect_target_is_served
    (isDev : bool) (L : string) (oq : option string) (res : ServerResponse) :
  In L SUPPORTED_LANGUAGES ->
  getBasePath env <> "/" ->
  includes (getBasePath env) "?" = false ->
  plainQuery oq = true ->
  let location :=
    (if truthy (getBasePath env)
     then getBasePath env ++ "/" ++ L ++ "/"
     else "/" ++ L ++ "/") ++ querySuffix oq in
  createLanguageMiddleware env isDev {| url := Some location |} res =
  next {| url :=
            Some ((if isDev then "/index.html"
                   else if existsSync env ["dist"; L; "index.html"]
                        then "/" ++ L ++ "/index.html"
                        else "/index.html") ++ querySuffix oq) |} res.
Proof.
  intros HL Hb Hq Hoq location.
  assert (Hloc : location = (getBasePath env ++ "/" ++ L ++ "/")
                              ++ querySuffix oq).
  { subst location. destruct (truthy (getBasePath env)) eqn:Ht;
      [reflexivity |].
    apply negb_false_iff, String.eqb_eq in Ht. now rewrite Ht. }
  assert (Hp : includes (getBasePath env ++ "/" ++ L ++ "/") "?" = false).
  { apply includes_append_false; [exact Hq |].
    each_language HL; reflexivity. }
  destruct (split_query_suffix _ oq Hp Hoq) as [Hhd Hqs].
  rewrite Hloc. rewrite (language_index_resolution isDev L); [| exact HL |].
  - now rewrite Hqs.
  - rewrite Hhd. apply normalizePath_strips_base; [exact Hb |].
    clear - HL. each_language HL; reflexivity.
Qed.


End RouterBranches.

Section RouterBranchWitnesses.
Import ViteConfig.

Lemma language_index_resolution_witness :
  createLanguageMiddleware demoEnv false {| url := Some "/de/?x=1" |}
    freshResponse
  = next {| url := Some "/index.html?x=1" |} freshResponse.
Proof.
  apply (language_index_resolution demoEnv false "de" "/de/?x=1"
           freshResponse);
    [right; left; reflexivity | reflexivity].
Defined.

Lemma dev_known_page_witness :
  createLanguageMiddleware demoEnv true {| url := Some "/de/merge-pdf" |}
    freshResponse
  = next {| url := Some "/src/pages/merge-pdf.html" |} freshResponse.
Proof.
  apply (dev_known_page demoEnv "de" "merge-pdf" "/de/merge-pdf"
           freshResponse);
    first [reflexivity | discriminate | (right; left; reflexivity)].
Defined.

Lemma implicit_page_resolution_witness :
  createLanguageMiddleware demoEnv false {| url := Some "/fr/docs/guide?x" |}
    freshResponse
  = next {| url := Some "/docs/guide.html?x" |} freshResponse.
Proof.
  apply (implicit_page_resolution demoEnv false "fr" "docs/guide"
           "/fr/docs/guide?x" freshResponse);
    first [reflexivity | discriminate | (do 9 right; left; reflexivity)].
Defined.

Lemma normalizePath_strips_base_witness :
  normalizePath "/pdf" ("/pdf" ++ "/de/tools") = "/de/tools".
Proof.
  apply (normalizePath_strips_base "/pdf" "/de/tools");
    [discriminate | reflexivity].
Defined.

Lemma redirect_target_is_served_witness :
  createLanguageMiddleware pdfEnv false {| url := Some "/pdf/de/?a=1" |}
    freshResponse
  = next {| url := Some "/de/index.html?a=1" |} freshResponse.
Proof.
  apply (redirect_target_is_served pdfEnv false "de" (Some "a=1")
           freshResponse);
    first [reflexivity | discriminate | (right; left; reflexivity)].
Defined.

End RouterBranchWitnesses.

Section PageSet.
Import ViteConfig.

Lemma has_In (set : list string) (x : string) :
  has set x = true <-> In x set.
Proof.
  unfold has. rewrite existsb_exists. split.
  - intros (y & Hy & E). apply String.eqb_eq in E. now subst.
  - intros H. exists x. split; [exact H | apply String.eqb_refl].
Qed.

Lemma has_add (x p : string) (set : list string) :
  has (add x set) p = true <-> has set p = true \/ p = x.
Proof.
  unfold add. destruct (has set x) eqn:Hx.
  - split; [now left |]. intros [H| ->]; assumption.
  - rewrite !has_In, in_app_iff. simpl. intuition.
Qed.

Lemma has_fold_add (l : list string) :
  forall init p,
    has (fold_left (fun pages x => add x pages) l init) p = true
    <-> has init p = true \/ In p l.
Proof.
  induction l as [|x l IH]; intros init p; simpl.
  - tauto.
  - rewrite IH, has_add. intuition.
Qed.

Lemma has_fold_files (l : list string) :
  forall init p,
    has (fold_left
           (fun pages file =>
              if endsWith file ".html"
              then add (replace ".html" "" file) pages else pages)
           l init) p = true
    <-> has init p = true \/
        exists file, In file l /\ endsWith file ".html" = true /\
                     p = replace ".html" "" file.
Proof.
  induction l as [|x l IH]; intros init p; simpl.
  - split; [now left |]. intros [H|(f & [] & _)]. exact H.
  - rewrite IH. destruct (endsWith x ".html") eqn:Hx.
    + rewrite has_add. split.
      * intros [[H| ->]|(f & Hf & He & Hp)]; [now left | |].
        -- right. exists x. auto.
        -- right. exists f. auto.
      * intros [H|(f & [<-|Hf] & He & Hp)]; [now left; left | |].
        -- left. now right.
        -- right. exists f. auto.
    + split.
      * intros [H|(f & Hf & He & Hp)]; [now left |].
        right. exists f. auto.
      * intros [H|(f & [<-|Hf] & He & Hp)]; [now left | congruence |].
        right. exists f. auto.
Qed.

(** X8.  The known pages are the thirteen root pages and, when the pages
    directory exists, the names of its [.html] files with the first
    [.html] removed; nothing else. *)
Theorem loadPages_membership (env : Env) (p : string) :
  has (PAGES env) p = true <->
  In p rootPages \/
  (existsSync env ["src/pages"] = true /\
   exists file,
     In file (readdirSync env ["src/pages"]) /\
     endsWith file ".html" = true /\
     p = replace ".html" "" file).
Proof.
  unfold PAGES, loadPages. cbv zeta. rewrite has_fold_add.
  destruct (existsSync env ["src/pages"]).
  - rewrite has_fold_files. simpl has. intuition discriminate.
  - simpl has. intuition discriminate.
Qed.

End PageSet.

Section ConfigBase.
Import ViteConfig RegexReplace BundlePlugins.

Lemma succ_neqb (n : nat) : Nat.eqb (S n) n = false.
Proof. apply Nat.eqb_neq. lia. Qed.

(** [replace(/\/?$/, '/')] puts a slash at the end unless one is there. *)
Lemma trailing_slash_added (s : string) :
  forall pos,
    replaceAt trailingSlashRegex "/" pos s
    = if endsWith s "/" then s else s ++ "/".
Proof.
  induction s as [|c s IH]; intros pos.
  - cbn -[Nat.sub]. now rewrite Nat.sub_diag.
  - destruct s as [|d s].
    + cbn [replaceAt trailingSlashRegex run inCls].
      destruct (Ascii.eqb_spec c "/") as [->|Hc].
      * rewrite succ_neqb. cbn -[Nat.sub].
        replace (S pos - pos) with 1 by lia. reflexivity.
      * cbn -[Nat.sub]. rewrite Nat.sub_diag.
        destruct (Ascii.eqb_spec c "/"); [contradiction | reflexivity].
    + assert (E : endsWith (String c (String d s)) "/"
                  = endsWith (String d s) "/").
      { cbn [endsWith String.eqb]. now destruct (Ascii.eqb c "/"). }
      rewrite E.
      assert (R : replaceAt trailingSlashRegex "/" pos (String c (String d s))
                  = String c (replaceAt trailingSlashRegex "/" (S pos)
                                (String d s))).
      { cbn [replaceAt trailingSlashRegex run inCls].
        destruct (Ascii.eqb c "/"); [now rewrite succ_neqb | reflexivity]. }
      rewrite R, IH.
      destruct (endsWith (String d s) "/"); reflexivity.
Qed.

Lemma endsWith_append_self (s p : string) : endsWith (s ++ p) p = true.
Proof.
  induction s as [|c s IH]; cbn [append endsWith].
  - destruct p; cbn [endsWith]; now rewrite String.eqb_refl.
  - rewrite IH. apply orb_true_r.
Qed.

Lemma stripSuffix_append (s p : string) : stripSuffix p (s ++ p) = s.
Proof.
  unfold stripSuffix. rewrite endsWith_append_self.
  assert (E : String.length (s ++ p) - String.length p = String.length s).
  { induction s as [|c s IH]; cbn [append String.length]; [lia |].
    assert (String.length p <= String.length (s ++ p)).
    { clear. induction s; cbn [append String.length]; lia. }
    lia. }
  rewrite E. clear E.
  induction s as [|c s IH]; cbn [append String.length substring].
  - now destruct p.
  - now rewrite IH.
Qed.

Lemma endsWith_split (s p : string) :
  endsWith s p = true -> exists a, s = a ++ p.
Proof.
  induction s as [|c s IH]; cbn [endsWith]; intros H.
  - rewrite orb_false_r in H. apply String.eqb_eq in H. now exists "".
  - apply orb_prop in H as [H|H].
    + apply String.eqb_eq in H. now exists "".
    + destruct (IH H) as (a & ->). now exists (String c a).
Qed.

Lemma stripSuffix_rejoin (s p : string) :
  endsWith s p = true -> stripSuffix p s ++ p = s.
Proof.
  intros H. destruct (endsWith_split s p H) as (a & ->).
  now rewrite stripSuffix_append.
Qed.

(** X9.  The two values the configuration computes from [BASE_URL] fit
    together: the [base] option passed to the bundler (line 312) is the
    base path of [getBasePath] followed by one slash, so stripping that
    slash from [base] gives the base path back, whatever [BASE_URL] is. *)
Theorem config_base_is_base_path_slash (env : Env) :
  configBase env = getBasePath env ++ "/" /\
  stripSuffix "/" (configBase env) = getBasePath env.
Proof.
  unfold configBase, getBasePath, replaceFirst.
  set (raw := match BASE_URL env with Some b => or_else b "/" | None => "/" end).
  rewrite trailing_slash_added.
  destruct (endsWith raw "/") eqn:E.
  - split; [now rewrite stripSuffix_rejoin | reflexivity].
  - rewrite stripSuffix_append, (stripSuffix_absent _ _ E). now split.
Qed.

(** [base] always ends with a slash. *)
Lemma configBase_ends_with_slash (env : Env) :
  endsWith (configBase env) "/" = true.
Proof.
  unfold configBase, replaceFirst.
  set (raw := match BASE_URL env with Some b => or_else b "/" | None => "/" end).
  rewrite trailing_slash_added.
  destruct (endsWith raw "/") eqn:E; [exact E | apply endsWith_append_self].
Qed.

End ConfigBase.

Section BundleFacts.
Import BundlePlugins.

Lemma keys_assign (k : string) (a : Asset) (b : Bundle) :
  forall k', In k' (keys (assign k a b)) <-> k' = k \/ In k' (keys b).
Proof.
  induction b as [|[k0 a0] b IH]; intros k'; simpl.
  - intuition.
  - destruct (String.eqb_spec k0 k) as [->|Hne]; simpl.
    + intuition.
    + rewrite IH. intuition.
Qed.

Lemma keys_remove (k : string) (b : Bundle) :
  forall k', In k' (keys (remove k b)) <-> k' <> k /\ In k' (keys b).
Proof.
  induction b as [|[k0 a0] b IH]; intros k'; simpl.
  - intuition.
  - destruct (String.eqb_spec k0 k) as [->|Hne]; simpl.
    + rewrite IH. intuition. now subst.
    + rewrite IH. intuition. now subst.
Qed.

Lemma NoDup_assign (k : string) (a : Asset) (b : Bundle) :
  NoDup (keys b) -> NoDup (keys (assign k a b)).
Proof.
  induction b as [|[k0 a0] b IH]; simpl; intros H.
  - constructor; [intros [] | constructor].
  - inversion H as [|? ? Hnotin Hnd]; subst.
    destruct (String.eqb_spec k0 k) as [->|Hne]; simpl.
    + now constructor.
    + constructor; [|now apply IH].
      rewrite keys_assign. intros [E|Hin]; [now subst | contradiction].
Qed.

Lemma NoDup_remove (k : string) (b : Bundle) :
  NoDup (keys b) -> NoDup (keys (remove k b)).
Proof.
  induction b as [|[k0 a0] b IH]; simpl; intros H; [constructor |].
  inversion H as [|? ? Hnotin Hnd]; subst.
  destruct (k0 =? k); simpl; [now apply IH |].
  constructor; [|now apply IH].
  change (filter (fun e : string * Asset => negb (fst e =? k)) b)
    with (remove k b).
  rewrite keys_remove. tauto.
Qed.

Lemma lookup_In (k : string) (b : Bundle) :
  In k (keys b) -> exists a, lookup k b = Some a.
Proof.
  induction b as [|[k0 a0] b IH]; simpl; [intros [] |].
  intros [->|H].
  - rewrite String.eqb_refl. now exists a0.
  - destruct (k0 =? k); [now exists a0 | now apply IH].
Qed.

Lemma lookup_keys (k : string) (a : Asset) (b : Bundle) :
  lookup k b = Some a -> In k (keys b).
Proof.
  induction b as [|[k0 a0] b IH]; simpl; [discriminate |].
  destruct (String.eqb_spec k0 k) as [->|_]; [now left | right; auto].
Qed.

Lemma lookup_assign_same (k : string) (a : Asset) (b : Bundle) :
  lookup k (assign k a b) = Some a.
Proof.
  induction b as [|[k0 a0] b IH]; simpl.
  - now rewrite String.eqb_refl.
  - destruct (String.eqb_spec k0 k) as [->|Hne]; simpl.
    + now rewrite String.eqb_refl.
    + apply String.eqb_neq in Hne. now rewrite Hne.
Qed.

Lemma lookup_assign_other (k k' : string) (a : Asset) (b : Bundle) :
  k' <> k -> lookup k' (assign k a b) = lookup k' b.
Proof.
  intros Hne. induction b as [|[k0 a0] b IH]; simpl.
  - destruct (String.eqb_spec k k'); [now subst | reflexivity].
  - destruct (String.eqb_spec k0 k) as [->|Hk]; simpl.
    + destruct (String.eqb_spec k k'); [now subst | reflexivity].
    + destruct (k0 =? k'); [reflexivity | exact IH].
Qed.

Lemma lookup_remove_other (k k' : string) (b : Bundle) :
  k' <> k -> lookup k' (remove k b) = lookup k' b.
Proof.
  intros Hne. induction b as [|[k0 a0] b IH]; simpl; [reflexivity |].
  destruct (String.eqb_spec k0 k) as [->|Hk]; simpl.
  - destruct (String.eqb_spec k k'); [now subst | exact IH].
  - destruct (k0 =? k'); [reflexivity | exact IH].
Qed.

Lemma lookup_remove_same (k : string) (b : Bundle) :
  lookup k (remove k b) = None.
Proof.
  destruct (lookup k (remove k b)) as [a|] eqn:E; [|reflexivity].
  apply lookup_keys, keys_remove in E. now destruct E.
Qed.

Lemma consistent_assign (k : string) (a : Asset) (b : Bundle) :
  consistent b -> consistent (assign k (renamed k a) b).
Proof.
  unfold consistent. induction b as [|[k0 a0] b IH]; simpl; intros H k' a' Hin.
  - destruct Hin as [E|[]]. now injection E as <- <-.
  - destruct (k0 =? k); simpl in Hin.
    + destruct Hin as [E|Hin]; [now injection E as <- <- |].
      apply H. now right.
    + destruct Hin as [E|Hin]; [apply H; now left |].
      apply IH; [|exact Hin]. intros k1 a1 H1. apply H. now right.
Qed.

Lemma consistent_remove (k : string) (b : Bundle) :
  consistent b -> consistent (remove k b).
Proof.
  unfold consistent, remove. intros H k' a' Hin.
  apply filter_In in Hin as [Hin _]. now apply H.
Qed.

Lemma replace_prefix (p r s : string) :
  startsWith s p = true ->
  replace p r s = r ++ slice (String.length p) s.
Proof.
  unfold startsWith. intros H. destruct s; cbn [replace]; now rewrite H.
Qed.

Lemma startsWith_twice (a b s : string) :
  startsWith s a = true ->
  startsWith (slice (String.length a) s) b = true ->
  startsWith s (a ++ b) = true.
Proof.
  unfold startsWith. revert s.
  induction a as [|c a IH]; intros s Ha Hb; [exact Hb |].
  destruct s as [|d s]; [discriminate |].
  cbn [append String.prefix String.length slice] in *.
  destruct (ascii_dec c d); [|discriminate]. now apply IH.
Qed.

Lemma slice_injective (p s t : string) :
  startsWith s p = true -> startsWith t p = true ->
  slice (String.length p) s = slice (String.length p) t -> s = t.
Proof.
  unfold startsWith. revert s t.
  induction p as [|c p IH]; intros s t Hs Ht E; [exact E |].
  destruct s as [|x s], t as [|y t]; try discriminate.
  cbn [String.prefix String.length slice] in *.
  destruct (ascii_dec c x), (ascii_dec c y); try discriminate.
  subst. f_equal. now apply IH.
Qed.

Lemma isPageKey_flattenOne (k : string) (b : Bundle) :
  isPageKey k = false -> flattenOne k b = Some b.
Proof. unfold flattenOne, isPageKey. now intros ->. Qed.

Lemma flattenOne_page (k : string) (a : Asset) (b : Bundle) :
  isPageKey k = true -> lookup k b = Some a ->
  flattenOne k b
  = Some (remove k (assign (slice 10 k) (renamed (slice 10 k) a) b)).
Proof.
  unfold flattenOne, isPageKey. intros Hk Hl. rewrite Hk, Hl.
  apply andb_true_iff in Hk as [Hp _].
  now rewrite (replace_prefix "src/pages/" "" k Hp).
Qed.

Lemma slice_length (p s : string) :
  startsWith s p = true ->
  String.length (slice (String.length p) s) + String.length p
  = String.length s.
Proof.
  unfold startsWith. revert s.
  induction p as [|c p IH]; intros s H; cbn [String.length slice].
  - destruct s; cbn [slice]; lia.
  - destruct s as [|d s]; cbn [String.prefix] in H; [discriminate |].
    destruct (ascii_dec c d); [|discriminate].
    cbn [String.length slice]. specialize (IH s H). lia.
Qed.

Lemma page_key_moves (k : string) :
  isPageKey k = true -> slice 10 k <> k.
Proof.
  intros Hk E. apply andb_true_iff in Hk as [Hp _].
  pose proof (slice_length "src/pages/" k Hp) as L.
  cbn [String.length] in L. rewrite E in L. lia.
Qed.

(** The loop: what holds for the keys still to visit. *)
Lemma flattenKeys_safe (ks : list string) :
  forall b,
    NoDup ks -> NoDup (keys b) ->
    (forall k, In k ks -> In k (keys b)) ->
    exists b', flattenKeys ks b = Some b' /\ NoDup (keys b') /\
               (consistent b -> consistent b').
Proof.
  induction ks as [|k ks IH]; intros b Hks Hb Hin; simpl.
  - exists b. auto.
  - inversion Hks as [|? ? Hnotin Hnd]; subst.
    destruct (isPageKey k) eqn:Hk.
    + destruct (lookup_In k b (Hin k (or_introl eq_refl))) as [a Ha].
      rewrite (flattenOne_page k a b Hk Ha).
      destruct (IH (remove k (assign (slice 10 k) (renamed (slice 10 k) a) b)))
        as (b' & Hb' & Hnd' & Hc'); [exact Hnd | | |].
      * now apply NoDup_remove, NoDup_assign.
      * intros k' Hk'. rewrite keys_remove, keys_assign. split.
        -- intros ->. contradiction.
        -- right. apply Hin. now right.
      * exists b'. split; [exact Hb' |]. split; [exact Hnd' |].
        intros Hc. apply Hc'. now apply consistent_remove, consistent_assign.
    + rewrite (isPageKey_flattenOne k b Hk).
      apply IH; [exact Hnd | exact Hb |]. intros k' Hk'. apply Hin. now right.
Qed.

Lemma simpleIndex_keeps (simpleMode : option string) (b : Bundle) :
  NoDup (keys b) ->
  NoDup (keys (simpleIndex simpleMode b)) /\
  (consistent b -> consistent (simpleIndex simpleMode b)).
Proof.
  intros Hb. unfold simpleIndex.
  destruct simpleMode as [m|]; [|auto].
  destruct (lookup "simple-index.html" b) as [a|]; [|auto].
  destruct (m =? "true"); [|auto]. split.
  - now apply NoDup_remove, NoDup_assign.
  - intros Hc. now apply consistent_remove, consistent_assign.
Qed.

(** X10.  [generateBundle] of the flattening plugin never fails on a
    bundle object; it keeps the keys distinct, keeps every entry filed
    under its own [fileName], and in simple mode leaves no
    [simple-index.html] behind. *)
Theorem flattenPages_safe (simpleMode : option string) (b : Bundle) :
  NoDup (keys b) ->
  exists b',
    flattenPages simpleMode b = Some b' /\
    NoDup (keys b') /\
    (consistent b -> consistent b') /\
    (simpleMode = Some "true" -> lookup "simple-index.html" b' = None).
Proof.
  intros Hb. unfold flattenPages.
  destruct (flattenKeys_safe (keys b) b Hb Hb (fun k H => H))
    as (b1 & -> & Hnd & Hc).
  destruct (simpleIndex_keeps simpleMode b1 Hnd) as [Hnd' Hc'].
  exists (simpleIndex simpleMode b1).
  split; [reflexivity |]. split; [exact Hnd' |]. split; [tauto |].
  intros ->. unfold simpleIndex.
  destruct (lookup "simple-index.html" b1) as [a|] eqn:E; [|exact E].
  cbn [String.eqb Ascii.eqb Bool.eqb]. apply lookup_remove_same.
Qed.

Lemma flattenPages_safe_witness :
  exists b',
    flattenPages (Some "true") demoBundle = Some b' /\
    NoDup (keys b') /\
    (consistent demoBundle -> consistent b') /\
    (Some "true" = Some "true" -> lookup "simple-index.html" b' = None).
Proof.
  apply (flattenPages_safe (Some "true") demoBundle).
  repeat constructor; simpl; intuition discriminate.
Defined.

End BundleFacts.

Section FlattenedBundle.
Import BundlePlugins.

Lemma flattened_name_plain (k : string) :
  isPageKey k = true ->
  startsWith k "src/pages/src/pages/" = false ->
  isPageKey (slice 10 k) = false.
Proof.
  intros Hk Hd. apply andb_true_iff in Hk as [Hp _].
  unfold isPageKey.
  destruct (startsWith (slice 10 k) "src/pages/") eqn:E; [|reflexivity].
  pose proof (startsWith_twice "src/pages/" "src/pages/" k Hp E) as H.
  cbn [append] in H. rewrite Hd in H. discriminate.
Qed.

Lemma flattenKeys_no_page (ks : list string) :
  forall b b',
    NoDup ks ->
    (forall k, In k ks -> In k (keys b)) ->
    (forall k, In k ks -> startsWith k "src/pages/src/pages/" = false) ->
    (forall k, In k (keys b) -> isPageKey k = true -> In k ks) ->
    flattenKeys ks b = Some b' ->
    forall k, In k (keys b') -> isPageKey k = false.
Proof.
  induction ks as [|k0 ks IH]; intros b b' Hnd Hin Hplain Hinv H k Hk.
  - injection H as <-.
    destruct (isPageKey k) eqn:E; [|reflexivity].
    destruct (Hinv k Hk E).
  - cbn [flattenKeys] in H. inversion Hnd as [|? ? Hnotin Hnd']; subst.
    destruct (isPageKey k0) eqn:Hk0.
    + destruct (lookup_In k0 b (Hin k0 (or_introl eq_refl))) as [a Ha].
      rewrite (flattenOne_page k0 a b Hk0 Ha) in H.
      apply (IH _ b' Hnd') with (k := k) in H; [exact H | | | | exact Hk].
      * intros k' Hk'. rewrite keys_remove, keys_assign. split.
        -- intros ->. contradiction.
        -- right. apply Hin. now right.
      * intros k' Hk'. apply Hplain. now right.
      * intros k' Hk' Hpage. apply keys_remove in Hk' as [Hne Hk'].
        apply keys_assign in Hk' as [->|Hk'].
        -- rewrite (flattened_name_plain k0 Hk0) in Hpage; [discriminate |].
           apply Hplain. now left.
        -- destruct (Hinv k' Hk' Hpage) as [->|Hks]; [contradiction | exact Hks].
    + rewrite (isPageKey_flattenOne k0 b Hk0) in H.
      apply (IH _ b' Hnd') with (k := k) in H; [exact H | | | | exact Hk].
      * intros k' Hk'. apply Hin. now right.
      * intros k' Hk'. apply Hplain. now right.
      * intros k' Hk' Hpage.
        destruct (Hinv k' Hk' Hpage) as [->|Hks]; [|exact Hks].
        rewrite Hk0 in Hpage. discriminate.
Qed.

(** X11.  When no key starts with [src/pages/] twice, the flattened bundle
    holds no [.html] entry below [src/pages/] any more. *)
Theorem flattenPages_no_page_left
    (simpleMode : option string) (b b' : Bundle) :
  NoDup (keys b) ->
  (forall k, In k (keys b) -> startsWith k "src/pages/src/pages/" = false) ->
  flattenPages simpleMode b = Some b' ->
  forall k, In k (keys b') -> isPageKey k = false.
Proof.
  intros Hnd Hplain H k Hk. unfold flattenPages in H.
  destruct (flattenKeys (keys b) b) as [b1|] eqn:E; [|discriminate].
  injection H as <-.
  assert (H1 : forall k, In k (keys b1) -> isPageKey k = false)
    by (apply (flattenKeys_no_page (keys b) b b1); auto).
  unfold simpleIndex in Hk.
  destruct simpleMode as [m|]; [|now apply H1].
  destruct (lookup "simple-index.html" b1) as [a|]; [|now apply H1].
  destruct (m =? "true"); [|now apply H1].
  apply keys_remove in Hk as [_ Hk].
  apply keys_assign in Hk as [->|Hk]; [reflexivity | now apply H1].
Qed.

Lemma flattenPages_no_page_left_witness :
  isPageKey "merge-pdf.html" = false.
Proof.
  apply (flattenPages_no_page_left (Some "true") demoBundle demoFlat).
  - repeat constructor; simpl; intuition discriminate.
  - simpl. intros k [<-|[<-|[<-|[<-|[]]]]]; reflexivity.
  - reflexivity.
  - simpl. tauto.
Defined.

Lemma prefix_slice (p s : string) :
  startsWith s p = true -> s = p ++ slice (String.length p) s.
Proof.
  unfold startsWith. revert s.
  induction p as [|c p IH]; intros s H; [now destruct s |].
  destruct s as [|d s]; cbn [String.prefix] in H; [discriminate |].
  destruct (ascii_dec c d) as [->|]; [|discriminate].
  cbn [append String.length slice]. f_equal. now apply IH.
Qed.

Lemma lookup_absent (k : string) (b : Bundle) :
  ~ In k (keys b) -> lookup k b = None.
Proof.
  intros H. destruct (lookup k b) as [a|] eqn:E; [|reflexivity].
  destruct H. now apply lookup_keys with a.
Qed.

Lemma flattenKeys_moves (k : string) (a : Asset) (ks : list string) :
  isPageKey k = true ->
  forall b,
    NoDup ks ->
    (forall k', In k' ks -> In k' (keys b)) ->
    (forall k', In k' ks -> k' <> (slice 10 k) /\ k' <> "src/pages/" ++ k) ->
    movedOrPending k a ks b ->
    exists b', flattenKeys ks b = Some b' /\
               lookup (slice 10 k) b' = Some (renamed (slice 10 k) a) /\
               ~ In k (keys b').
Proof.
  intros Hpage.
  assert (Hstart : startsWith k "src/pages/" = true)
    by (apply andb_true_iff in Hpage; tauto).
  induction ks as [|k0 ks IH]; intros b Hnd Hin Hside Hphase.
  - destruct Hphase as [([] & _)|(_ & Hl & Hk)]. exists b. auto.
  - cbn [flattenKeys]. inversion Hnd as [|? ? Hnotin Hnd']; subst.
    assert (Hside' : forall k', In k' ks ->
                                k' <> (slice 10 k) /\ k' <> "src/pages/" ++ k)
      by (intros k' Hk'; apply Hside; now right).
    destruct (isPageKey k0) eqn:Hk0.
    + destruct (lookup_In k0 b (Hin k0 (or_introl eq_refl))) as [a0 Ha0].
      rewrite (flattenOne_page k0 a0 b Hk0 Ha0).
      assert (Hin' : forall k', In k' ks ->
                 In k' (keys (remove k0
                                (assign (slice 10 k0)
                                   (renamed (slice 10 k0) a0) b)))).
      { intros k' Hk'. rewrite keys_remove, keys_assign. split.
        - intros ->. contradiction.
        - right. apply Hin. now right. }
      apply IH; [exact Hnd' | exact Hin' | exact Hside' |].
      destruct (String.eqb_spec k0 k) as [->|Hne].
      * (* the page itself is visited *)
        right. split; [exact Hnotin |].
        destruct Hphase as [(_ & Hl & Ht)|(Hn & _)];
          [|destruct Hn; now left].
        rewrite Ha0 in Hl. injection Hl as ->. split.
        -- rewrite lookup_remove_other by (apply page_key_moves; exact Hpage).
           apply lookup_assign_same.
        -- rewrite keys_remove. tauto.
      * (* another page is visited *)
        assert (Hstart0 : startsWith k0 "src/pages/" = true)
          by (apply andb_true_iff in Hk0; tauto).
        assert (N1 : slice 10 k0 <> (slice 10 k)).
        { intros E. apply Hne.
          now apply (slice_injective "src/pages/" k0 k). }
        assert (N2 : slice 10 k0 <> k).
        { intros E. destruct (Hside k0 (or_introl eq_refl)) as [_ N].
          apply N. rewrite <- E. now apply (prefix_slice "src/pages/"). }
        assert (N3 : k0 <> (slice 10 k))
          by (apply (Hside k0); now left).
        destruct Hphase as [(Hk & Hl & Ht)|(Hn & Hl & Hk)].
        -- left. split; [destruct Hk; [contradiction | assumption] |].
           split.
           ++ rewrite lookup_remove_other, lookup_assign_other; auto.
           ++ rewrite keys_remove, keys_assign. intros (_ & [E|H]); auto.
        -- right. split; [intros H; apply Hn; now right |]. split.
           ++ rewrite lookup_remove_other, lookup_assign_other; auto.
           ++ rewrite keys_remove, keys_assign. intros (_ & [E|H]); auto.
    + rewrite (isPageKey_flattenOne k0 b Hk0).
      apply IH; [exact Hnd' | | exact Hside' |].
      * intros k' Hk'. apply Hin. now right.
      * destruct Hphase as [(Hk & Hl & Ht)|(Hn & Hl & Hk)].
        -- left. split; [|tauto].
           destruct Hk as [->|Hk]; [|exact Hk].
           rewrite Hpage in Hk0. discriminate.
        -- right. split; [|tauto]. intros H. apply Hn. now right.
Qed.


(** X12.  A page filed under [src/pages/NAME] ends up under [NAME] with its
    content and with [fileName] set to [NAME], and its old key is gone,
    provided [NAME] is not taken, is not one of the two index names and no
    entry sits at [src/pages/src/pages/NAME]. *)
Theorem flattened_page_content
    (simpleMode : option string) (b : Bundle) (k : string) (a : Asset) :
  NoDup (keys b) ->
  isPageKey k = true ->
  lookup k b = Some a ->
  ~ In (slice 10 k) (keys b) ->
  ~ In ("src/pages/" ++ k) (keys b) ->
  slice 10 k <> "index.html" ->
  slice 10 k <> "simple-index.html" ->
  exists b',
    flattenPages simpleMode b = Some b' /\
    lookup (slice 10 k) b' = Some (renamed (slice 10 k) a) /\
    lookup k b' = None.
Proof.
  intros Hnd Hk Hl Hfree Hchain Hi Hs. unfold flattenPages.
  destruct (flattenKeys_moves k a (keys b) Hk b Hnd (fun _ H => H))
    as (b1 & -> & Hl1 & Hk1).
  - intros k' Hk'. split; intros ->; contradiction.
  - left. split; [now apply lookup_keys with a | tauto].
  - exists (simpleIndex simpleMode b1). split; [reflexivity |].
    assert (Hstart : startsWith k "src/pages/" = true)
      by (apply andb_true_iff in Hk; tauto).
    assert (Ki : k <> "index.html") by (intros ->; discriminate).
    assert (Ks : k <> "simple-index.html") by (intros ->; discriminate).
    unfold simpleIndex.
    destruct simpleMode as [m|];
      [|split; [exact Hl1 | now apply lookup_absent]].
    destruct (lookup "simple-index.html" b1) as [a1|];
      [|split; [exact Hl1 | now apply lookup_absent]].
    destruct (m =? "true");
      [|split; [exact Hl1 | now apply lookup_absent]].
    rewrite !lookup_remove_other, !lookup_assign_other by assumption.
    split; [exact Hl1 | now apply lookup_absent].
Qed.

Lemma flattened_page_content_witness :
  exists b',
    flattenPages None demoBundle = Some b' /\
    lookup (slice 10 "src/pages/merge-pdf.html") b'
      = Some (renamed (slice 10 "src/pages/merge-pdf.html")
                {| fileName := "src/pages/merge-pdf.html";
                   source := "merge" |}) /\
    lookup "src/pages/merge-pdf.html" b' = None.
Proof.
  apply (flattened_page_content None demoBundle "src/pages/merge-pdf.html"
           {| fileName := "src/pages/merge-pdf.html"; source := "merge" |});
    try reflexivity; try discriminate.
  - repeat constructor; simpl; intuition discriminate.
  - simpl. intuition discriminate.
  - simpl. intuition discriminate.
Defined.

End FlattenedBundle.

Section LanguageDetection.
Import I18n Navigation.



(** X13.  Whatever the address and whatever is stored, the detected
    language is one of the supported codes. *)
Theorem getLanguageFromUrl_supported (b : Browser) :
  In (getLanguageFromUrl b) supportedLanguages.
Proof.
  unfold getLanguageFromUrl. cbv zeta.
  destruct (exec urlLangRegex _) as [cs|].
  - destruct (capture 1 cs) as [l|].
    + destruct (arrIncludes supportedLanguages l) eqn:E;
        [now apply arrIncludes_In |].
      destruct (localStorage b "i18nextLng") as [st|]; [|now left].
      destruct (truthy st && arrIncludes supportedLanguages st) eqn:E';
        [|now left].
      apply andb_true_iff in E' as [_ E']. now apply arrIncludes_In.
    + destruct (localStorage b "i18nextLng") as [st|]; [|now left].
      destruct (truthy st && arrIncludes supportedLanguages st) eqn:E';
        [|now left].
      apply andb_true_iff in E' as [_ E']. now apply arrIncludes_In.
  - destruct (localStorage b "i18nextLng") as [st|]; [|now left].
    destruct (truthy st && arrIncludes supportedLanguages st) eqn:E';
      [|now left].
    apply andb_true_iff in E' as [_ E']. now apply arrIncludes_In.
Qed.

Lemma urlLang_prefix (L t : string) :
  In L supportedLanguages ->
  t = "" \/ startsWith t "/" = true ->
  match exec urlLangRegex ("/" ++ L ++ t) with
  | Some cs => capture 1 cs
  | None => None
  end = Some L.
Proof.
  intros HL Ht.
  assert (Ht' : t = "" \/ exists x, t = String "/" x).
  { destruct Ht as [->|Ht]; [now left |]. right.
    destruct t as [|c t]; [discriminate |].
    unfold startsWith in Ht. cbn [String.prefix] in Ht.
    destruct (ascii_dec "/" c) as [<-|]; [now exists t | discriminate]. }
  clear Ht. each_client_language HL;
    destruct Ht' as [->|(x & ->)]; reflexivity.
Qed.

(** X14.  A supported language code as first segment of the path (relative
    to the base path) is the detected language, whatever is stored. *)
Theorem url_prefix_wins (b : Browser) (L t : string) :
  In L supportedLanguages ->
  t = "" \/ startsWith t "/" = true ->
  relativePath (stripSuffix "/" (BASE_URL b)) (pathname b) = "/" ++ L ++ t ->
  getLanguageFromUrl b = L.
Proof.
  intros HL Ht Hp. unfold getLanguageFromUrl. cbv zeta. rewrite Hp.
  pose proof (urlLang_prefix L t HL Ht) as H.
  destruct (exec urlLangRegex ("/" ++ L ++ t)) as [cs|]; [|discriminate].
  rewrite H. apply arrIncludes_In in HL. now rewrite HL.
Qed.

Lemma url_prefix_wins_witness :
  getLanguageFromUrl (visitorAt "/de/tools.html") = "de".
Proof.
  apply (url_prefix_wins (visitorAt "/de/tools.html") "de" "/tools.html");
    [do 2 right; left; reflexivity | right; reflexivity | reflexivity].
Defined.

End LanguageDetection.

Section LanguageSwitch.
Import I18n Navigation.


Lemma collapseSlashes_length (s : string) :
  forall st, String.length (collapseSlashes st s) <= String.length s.
Proof.
  induction s as [|c s IH]; intros st; cbn [collapseSlashes String.length];
    [lia |].
  pose proof (IH true) as Ht. pose proof (IH false) as Hf.
  destruct (Ascii.eqb c "/"); [destruct st |]; cbn [String.length]; lia.
Qed.

(** A prefix that the collapsing leaves alone and that does not end in a
    slash is copied, and what follows is collapsed on its own. *)
Lemma collapseSlashes_prefix (a : string) :
  forall st y,
    a <> "" ->
    collapseSlashes st a = a ->
    endsWith a "/" = false ->
    collapseSlashes st (a ++ y) = a ++ collapseSlashes false y.
Proof.
  induction a as [|c a IH]; intros st y Hne Hfix Hend; [contradiction |].
  cbn [append collapseSlashes] in *.
  assert (Hend' : a <> "" -> endsWith a "/" = false).
  { intros _. cbn [endsWith] in Hend. now apply orb_false_elim in Hend. }
  destruct (Ascii.eqb_spec c "/") as [->|Hc].
  - destruct st.
    + exfalso. pose proof (collapseSlashes_length a true) as L.
      rewrite Hfix in L. cbn [String.length] in L. lia.
    + injection Hfix as Hfix. f_equal.
      destruct a as [|d a]; [discriminate Hend |].
      apply IH; [discriminate | exact Hfix | now apply Hend'].
  - injection Hfix as Hfix. f_equal.
    destruct a as [|d a]; [reflexivity |].
    apply IH; [discriminate | exact Hfix | now apply Hend'].
Qed.

Lemma startsWith_slash_inv (s : string) :
  startsWith s "/" = true -> exists x, s = String "/" x.
Proof.
  destruct s as [|c s]; [discriminate |].
  unfold startsWith. cbn [String.prefix].
  destruct (ascii_dec "/" c) as [<-|]; [now exists s | discriminate].
Qed.

Lemma startsWith_slash_cons (x : string) :
  startsWith (String "/" x) "/" = true.
Proof. now destruct x. Qed.

Lemma rooted (s : string) :
  exists x,
    (if negb (startsWith s "/") then "/" ++ s else s) = String "/" x.
Proof.
  destruct (startsWith s "/") eqn:E; cbn [negb].
  - now apply startsWith_slash_inv.
  - now exists s.
Qed.

(** The collapsed path behind a language code starts with that code. *)
Lemma collapsed_language_path (L x : string) :
  In L supportedLanguages ->
  exists z, collapseSlashes false ("/" ++ L ++ String "/" x)
            = "/" ++ L ++ String "/" z.
Proof.
  intros HL. each_client_language HL; eexists; reflexivity.
Qed.


(** X15.  Switching to a supported language other than [en] assigns an
    address made of a path, the current query and the current fragment,
    stores the language, and on the page with that path the detected
    language is the one switched to. *)
Theorem changeLanguage_is_detected (lang : string) (b : Browser) :
  In lang supportedLanguages ->
  lang <> "en" ->
  plainBase (stripSuffix "/" (BASE_URL b)) ->
  exists newPath,
    assignedHref (changeLanguage lang b)
      = Some (newPath ++ search b ++ hash b) /\
    localStorage (changeLanguage lang b) "i18nextLng" = Some lang /\
    getLanguageFromUrl (navigate (changeLanguage lang b) newPath) = lang.
Proof.
  intros HL Hen [Hfix Hend].
  unfold changeLanguage.
  rewrite (proj2 (arrIncludes_In supportedLanguages lang) HL). cbn [negb].
  cbv zeta. set (bp := stripSuffix "/" (BASE_URL b)) in *.
  apply String.eqb_neq in Hen. rewrite Hen.
  match goal with
  | |- context [if negb (startsWith ?s "/") then "/" ++ ?s else ?s] =>
      destruct (rooted s) as (x & ->)
  end.
  destruct (collapsed_language_path lang x HL) as (z & Hz).
  eexists. cbn [assignedHref localStorage]. split; [reflexivity |].
  split; [reflexivity |].
  apply (url_prefix_wins _ lang (String "/" z) HL);
    [right; now destruct z |].
  cbn [navigate BASE_URL pathname]. fold bp. unfold relativePath.
  destruct (truthy bp && negb (bp =? "/")) eqn:Hb.
  - assert (Hne : bp <> "").
    { intros E. rewrite E in Hb. discriminate. }
    change (bp ++ "/" ++ lang ++ String "/" x)
      with (bp ++ ("/" ++ lang ++ String "/" x)).
    rewrite (collapseSlashes_prefix bp false _ Hne Hfix Hend), Hz.
    rewrite startsWith_append, slice_append. cbn [andb append].
    unfold or_else. cbn [truthy String.eqb negb].
    now rewrite startsWith_slash_cons.
  - rewrite Hz. cbn [append andb]. now rewrite startsWith_slash_cons.
Qed.

Lemma changeLanguage_is_detected_witness :
  exists newPath,
    assignedHref (changeLanguage "fr" (pdfVisitorAt "/pdf/de/tools.html"))
      = Some (newPath ++ search (pdfVisitorAt "/pdf/de/tools.html")
                ++ hash (pdfVisitorAt "/pdf/de/tools.html")) /\
    localStorage (changeLanguage "fr" (pdfVisitorAt "/pdf/de/tools.html"))
      "i18nextLng" = Some "fr" /\
    getLanguageFromUrl
      (navigate (changeLanguage "fr" (pdfVisitorAt "/pdf/de/tools.html"))
         newPath) = "fr".
Proof.
  apply (changeLanguage_is_detected "fr" (pdfVisitorAt "/pdf/de/tools.html")).
  - right; left; reflexivity.
  - discriminate.
  - split; reflexivity.
Defined.

End LanguageSwitch.

Section PrefixSwap.
Import I18n Navigation.


Lemma langPrefixPath_sub (L r : string) :
  In L supportedLanguages -> noLineTerminator r = true ->
  match exec langPrefixPathRegex ("/" ++ L ++ "/" ++ r) with
  | Some cs => capture 2 cs
  | None => None
  end = Some ("/" ++ r).
Proof.
  intros HL Hr. unfold langPrefixPathRegex. rewrite exec_anchored.
  each_client_language HL; cbn.
  all: erewrite star_dot_all; [ | exact Hr | cbn; reflexivity].
  all: cbn; now rewrite substring_all.
Qed.

(** X16.  On a site served at the root, switching language on a page
    [/L1/r] replaces the prefix instead of stacking a second one: the new
    address is [/L2/r] (just [/r] for [en]) with runs of slashes collapsed,
    followed by the query and the fragment. *)
Theorem changeLanguage_swaps_prefix
    (L1 L2 r : string) (b : Browser) :
  In L1 supportedLanguages ->
  In L2 supportedLanguages ->
  noLineTerminator r = true ->
  BASE_URL b = "/" ->
  pathname b = "/" ++ L1 ++ "/" ++ r ->
  assignedHref (changeLanguage L2 b)
  = Some (collapseSlashes false
            ((if L2 =? "en" then "" else "/" ++ L2) ++ "/" ++ r)
            ++ search b ++ hash b).
Proof.
  intros H1 H2 Hr Hbase Hpath. unfold changeLanguage.
  rewrite (proj2 (arrIncludes_In supportedLanguages L2) H2). cbn [negb].
  cbv zeta. rewrite Hbase, Hpath.
  change (stripSuffix "/" "/") with "".
  assert (Hrel : relativePath "" ("/" ++ L1 ++ "/" ++ r)
                 = "/" ++ L1 ++ "/" ++ r).
  { unfold relativePath. cbn [truthy String.eqb negb andb append].
    now rewrite startsWith_slash_cons. }
  rewrite Hrel.
  pose proof (langPrefixPath_sub L1 r H1 Hr) as Hm.
  destruct (exec langPrefixPathRegex ("/" ++ L1 ++ "/" ++ r)) as [cs|];
    [|discriminate].
  rewrite Hm. cbn [assignedHref truthy String.eqb negb andb].
  unfold or_else. cbn [truthy String.eqb negb append].
  rewrite startsWith_slash_cons. cbn [negb].
  destruct (L2 =? "en"); reflexivity.
Qed.

Lemma changeLanguage_swaps_prefix_witness :
  assignedHref (changeLanguage "fr" (visitorAt "/de/tools.html"))
  = Some "/fr/tools.html".
Proof.
  apply (changeLanguage_swaps_prefix "de" "fr" "tools.html"
           (visitorAt "/de/tools.html"));
    first [reflexivity | (right; left; reflexivity)
           | (do 2 right; left; reflexivity)].
Defined.

End PrefixSwap.

Section XmlText.
Import RegexReplace Fb2Text.

(** The five shapes of [escapeChar]. *)
Lemma escapeChar_cases (c : ascii) :
  (c = "&"%char /\ escapeChar c = "&amp;") \/
  (c = "<"%char /\ escapeChar c = "&lt;") \/
  (c = ">"%char /\ escapeChar c = "&gt;") \/
  (c = "034"%char /\ escapeChar c = "&quot;") \/
  (c = "'"%char /\ escapeChar c = "&apos;") \/
  ((c <> "&" /\ c <> "<" /\ c <> ">" /\ c <> "034" /\ c <> "'")%char /\
   escapeChar c = String c "").
Proof.
  unfold escapeChar.
  destruct (Ascii.eqb_spec c "&"); [now left |]. right.
  destruct (Ascii.eqb_spec c "<"); [now left |]. right.
  destruct (Ascii.eqb_spec c ">"); [now left |]. right.
  destruct (Ascii.eqb_spec c "034"); [now left |]. right.
  destruct (Ascii.eqb_spec c "'"); [now left |]. right.
  tauto.
Qed.

Lemma replaceChar_other (c a : ascii) (rep s : string) :
  a <> c -> replaceChar c rep (String a s) = String a (replaceChar c rep s).
Proof.
  intros H. cbn [replaceChar].
  destruct (Ascii.eqb_spec a c); [contradiction | reflexivity].
Qed.

(** The five passes amount to one pass that escapes each character once. *)
Lemma escapeXml_each (s : string) : escapeXml s = escapeEach s.
Proof.
  unfold escapeXml. induction s as [|c s IH]; [reflexivity |].
  cbn [escapeEach]. rewrite <- IH.
  destruct (escapeChar_cases c)
    as [(-> & ->)|[(-> & ->)|[(-> & ->)|[(-> & ->)|[(-> & ->)|(H & ->)]]]]];
    try reflexivity.
  destruct H as (H1 & H2 & H3 & H4 & H5).
  now rewrite !replaceChar_other by assumption.
Qed.


(** X17.  The escaped text holds none of the characters [<], [>], double
    quote and apostrophe. *)
Theorem escapeXml_no_markup (s : string) (c : ascii) :
  isMarkup c -> includes (escapeXml s) (String c "") = false.
Proof.
  intros Hc. rewrite escapeXml_each.
  induction s as [|a s IH].
  - destruct Hc as [->|[->|[->| ->]]]; reflexivity.
  - cbn [escapeEach].
    destruct (escapeChar_cases a)
      as [(-> & ->)|[(-> & ->)|[(-> & ->)|[(-> & ->)|[(-> & ->)|(H & ->)]]]]];
      try (destruct Hc as [->|[->|[->| ->]]]; cbn; exact IH).
    destruct H as (H1 & H2 & H3 & H4 & H5).
    cbn [append includes String.prefix]. rewrite IH, orb_false_r.
    destruct (ascii_dec c a) as [->|_]; [|reflexivity].
    destruct Hc as [->|[->|[->| ->]]]; contradiction.
Qed.

Lemma escapeXml_no_markup_witness :
  includes (escapeXml "a<b & 'c'") "<" = false.
Proof.
  apply (escapeXml_no_markup "a<b & 'c'" "<"). left. reflexivity.
Defined.

(** X18.  Escaping loses nothing: two texts with the same escaped form are
    the same text. *)
Theorem escapeXml_injective (s t : string) :
  escapeXml s = escapeXml t -> s = t.
Proof.
  rewrite !escapeXml_each. revert t.
  induction s as [|a s IH]; intros t H.
  - destruct t as [|b t]; [reflexivity |]. exfalso.
    cbn [escapeEach] in H.
    destruct (escapeChar_cases b)
      as [(-> & E)|[(-> & E)|[(-> & E)|[(-> & E)|[(-> & E)|(_ & E)]]]]];
      rewrite E in H; discriminate.
  - destruct t as [|b t].
    + exfalso. cbn [escapeEach] in H.
      destruct (escapeChar_cases a)
        as [(-> & E)|[(-> & E)|[(-> & E)|[(-> & E)|[(-> & E)|(_ & E)]]]]];
        rewrite E in H; discriminate.
    + cbn [escapeEach] in H.
      destruct (escapeChar_cases a)
        as [(-> & Ea)|[(-> & Ea)|[(-> & Ea)|[(-> & Ea)|[(-> & Ea)|(Ha & Ea)]]]]];
      destruct (escapeChar_cases b)
        as [(-> & Eb)|[(-> & Eb)|[(-> & Eb)|[(-> & Eb)|[(-> & Eb)|(Hb & Eb)]]]]];
      rewrite ?Ea, ?Eb in H; cbn [append] in H;
      try discriminate H;
      try (injection H as H; f_equal; now apply IH);
      try (injection H as E H; exfalso; intuition congruence).
      injection H as -> H. f_equal. now apply IH.
Qed.

Lemma escapeXml_injective_witness : "a<b" = "a<b".
Proof. apply (escapeXml_injective "a<b" "a<b"). reflexivity. Defined.

Lemma replaceChar_clears (c d : ascii) (s : string) :
  d <> c -> includes (replaceChar c (String d "") s) (String c "") = false.
Proof.
  intros H. induction s as [|a s IH]; [reflexivity |].
  cbn [replaceChar].
  destruct (Ascii.eqb_spec a c) as [->|Ha];
    cbn [append includes String.prefix]; rewrite IH, orb_false_r.
  - destruct (ascii_dec c d) as [->|_]; [contradiction | reflexivity].
  - destruct (ascii_dec c a) as [->|_]; [contradiction | reflexivity].
Qed.

Lemma replaceChar_absent (c : ascii) (rep s : string) :
  includes s (String c "") = false -> replaceChar c rep s = s.
Proof.
  induction s as [|a s IH]; intros H; [reflexivity |].
  apply includes_cons_false in H as [Hne Hs].
  rewrite replaceChar_other by assumption. now rewrite IH.
Qed.

Lemma replaceCRLF_absent (s : string) :
  includes s (String CR "") = false -> replaceCRLF s = s.
Proof.
  induction s as [|a s IH]; intros H; [reflexivity |].
  apply includes_cons_false in H as [Hne Hs].
  cbn [replaceCRLF]. destruct s as [|b s]; [reflexivity |].
  destruct (Ascii.eqb_spec a CR) as [->|_]; [contradiction |].
  cbn [andb]. now rewrite IH.
Qed.

(** X19.  [normalizeText] leaves no carriage return, changes nothing in a
    text that has none, and is therefore idempotent. *)
Theorem normalizeText_no_carriage_return (s : string) :
  includes (normalizeText s) (String CR "") = false /\
  normalizeText (normalizeText s) = normalizeText s /\
  (includes s (String CR "") = false -> normalizeText s = s).
Proof.
  assert (H1 : forall t, includes (normalizeText t) (String CR "") = false).
  { intros t. unfold normalizeText. apply replaceChar_clears. discriminate. }
  assert (H3 : forall t, includes t (String CR "") = false ->
                         normalizeText t = t).
  { intros t Ht. unfold normalizeText.
    now rewrite (replaceCRLF_absent t Ht), (replaceChar_absent CR _ t Ht). }
  split; [apply H1 |]. split; [|apply H3]. apply H3, H1.
Qed.

End XmlText.

Section OutputNames.
Import RegexReplace Fb2Text PdfToFb2.


(** The pattern matches at a position only when an extension and nothing
    else is left there. *)
Lemma extension_pattern_sound (pos : nat) (s : string) (cs : captures) :
  run (Group 0 pdfExtensionRegex) pos s [] accept = Some cs ->
  isExtension s.
Proof.
  intros H. apply run_sound in H as (pos' & s' & cs' & Hm & _).
  unfold pdfExtensionRegex in Hm. invert_matches;
    repeat match goal with
      | E : inCls (CChr _) _ = true |- _ =>
          simpl in E; apply Ascii.eqb_eq in E; subst
      end;
    do 3 eexists; (split; [reflexivity |]); tauto.
Qed.

Lemma extension_pattern_complete (pos : nat) (e : string) :
  isExtension e ->
  exists cs, run (Group 0 pdfExtensionRegex) pos e [] accept = Some cs /\
             capture 0 cs = Some e.
Proof.
  intros (e1 & e2 & e3 & -> & H1 & H2 & H3).
  assert (E : S (S (S (S pos))) - pos = 4) by lia.
  destruct H1 as [->| ->], H2 as [->| ->], H3 as [->| ->];
    cbn -[Nat.sub]; rewrite E; eexists; split; reflexivity.
Qed.

Lemma isExtension_length (e : string) :
  isExtension e -> String.length e = 4.
Proof. now intros (e1 & e2 & e3 & -> & _). Qed.

Lemma append_length (a b : string) :
  String.length (a ++ b) = String.length a + String.length b.
Proof. induction a as [|c a IH]; cbn; [reflexivity | now rewrite IH]. Qed.

Lemma baseName_at (stem e : string) :
  isExtension e ->
  forall pos, replaceAt pdfExtensionRegex "" pos (stem ++ e) = stem.
Proof.
  intros He. induction stem as [|c stem IH]; intros pos.
  - cbn [append]. destruct e as [|d e]; [now destruct He as (? & ? & ? & ? & _) |].
    destruct (extension_pattern_complete pos _ He) as (cs & Hrun & Hcap).
    cbn [replaceAt]. rewrite Hrun, Hcap.
    pose proof (isExtension_length _ He) as L. rewrite L.
    destruct He as (e1 & e2 & e3 & E & _). injection E as -> ->. reflexivity.
  - cbn [append replaceAt].
    destruct (run (Group 0 pdfExtensionRegex) pos (String c (stem ++ e)) []
                accept) as [cs|] eqn:Hrun.
    + exfalso. apply extension_pattern_sound in Hrun.
      apply isExtension_length in Hrun.
      cbn [String.length] in Hrun. rewrite append_length in Hrun.
      rewrite (isExtension_length e He) in Hrun. lia.
    + now rewrite IH.
Qed.

Lemma pdfName_isExtension (n : string) :
  pdfName n <-> exists stem e, n = stem ++ e /\ isExtension e.
Proof.
  split.
  - intros (stem & e1 & e2 & e3 & -> & H). exists stem. eexists.
    split; [reflexivity |]. now exists e1, e2, e3.
  - intros (stem & e & -> & (e1 & e2 & e3 & -> & H)).
    now exists stem, e1, e2, e3.
Qed.

Lemma baseName_other_at (n : string) :
  ~ pdfName n ->
  forall pos, replaceAt pdfExtensionRegex "" pos n = n.
Proof.
  induction n as [|c n IH]; intros Hn pos; [reflexivity |].
  cbn [replaceAt].
  destruct (run (Group 0 pdfExtensionRegex) pos (String c n) [] accept)
    as [cs|] eqn:Hrun.
  - exfalso. apply Hn. apply pdfName_isExtension.
    exists "". eexists. split; [reflexivity |].
    now apply extension_pattern_sound with pos cs.
  - rewrite IH; [reflexivity |].
    intros Hp. apply Hn. apply pdfName_isExtension.
    apply pdfName_isExtension in Hp as (stem & e & -> & He).
    now exists (String c stem), e.
Qed.

(** X20.  A file whose name ends in [.pdf], in any case, is converted to a
    file named by its stem followed by [.fb2]. *)
Theorem fb2Name_replaces_extension (file : File) (stem e : string) :
  name file = stem ++ e -> isExtension e ->
  fb2Name file = stem ++ ".fb2".
Proof.
  intros E He. unfold fb2Name, baseName, replaceFirst.
  now rewrite E, baseName_at.
Qed.

Lemma fb2Name_replaces_extension_witness :
  fb2Name {| name := "Report.PDF"; type := ""; size := 0 |} = "Report.fb2".
Proof.
  apply (fb2Name_replaces_extension
           {| name := "Report.PDF"; type := ""; size := 0 |} "Report" ".PDF").
  - reflexivity.
  - exists "P"%char, "D"%char, "F"%char.
    split; [reflexivity |]. split; [now right |]. split; now right.
Defined.

(** Any other name is kept whole. *)
Lemma fb2Name_keeps_other_names (file : File) :
  ~ pdfName (name file) -> fb2Name file = name file ++ ".fb2".
Proof.
  intros H. unfold fb2Name, baseName, replaceFirst.
  now rewrite baseName_other_at.
Qed.

(** X21.  Two uploads in a row leave the same file list as one upload of
    both lists. *)
Theorem handleFiles_twice (first second : list File) (p : Page) :
  files (handleFiles second (handleFiles first p))
  = files (handleFiles (first ++ second)%list p).
Proof.
  rewrite !handleFiles_files, filter_app. now rewrite List.app_assoc.
Qed.

End OutputNames.

Section EarlierLemmas.
Import ViteConfig I18n.

Lemma rewriteHref_rooted_idempotent_witness :
  rewriteHref "" "de" (rewriteHref "" "de" "/about.html")
  = rewriteHref "" "de" "/about.html".
Proof.
  apply (rewriteHref_rooted_idempotent "de" "/about.html");
    [do 2 right; left; reflexivity | reflexivity].
Defined.

Lemma bare_language_redirect_plain_witness :
  createLanguageMiddleware pdfEnv false {| url := Some "/pdf/fr?a=1" |}
    freshResponse
  = {| req_out := {| url := Some "/pdf/fr?a=1" |};
       res_out := {| statusCode := 302;
                     headers := [("Location", "/pdf/fr/?a=1")];
                     ended := true |};
       next_called := false |}.
Proof.
  apply (bare_language_redirect_plain pdfEnv false "fr" "/pdf/fr"
           (Some "a=1") freshResponse);
    first [reflexivity | (do 9 right; left; reflexivity)].
Defined.

End EarlierLemmas.
